(** * Shallow embedding of the Shoal build runner ([build.py])

    The embedding follows [BuildRunner] method by method.  The outside world
    (file system, process environment, external tools) is a [world] value
    threaded through a small state-and-exception monad, so that Python
    exceptions keep the effects that happened before they were raised.
    External commands are an oracle [exec]: given the command line, the
    working directory and the environment the child process receives, it
    returns the completed process, or the [OSError] raised by
    [subprocess.run] when spawning fails. *)

From Stdlib Require Import ZArith String Ascii Bool.
From stdpp Require Import base gmap strings list.

Open Scope string_scope.

Module Shoal.

(** ** Python exceptions *)

(** [Exception] subclasses are caught by [except Exception]; [BaseException]
    only subclasses ([KeyboardInterrupt], [SystemExit]) are not. *)
Inductive exc_class := ExcException | ExcBaseOnly.

Record exn := mk_exn { exn_class : exc_class; exn_type : string; exn_msg : string }.

Inductive res (A : Type) := Ret (a : A) | Raise (e : exn).
Arguments Ret {A} a.
Arguments Raise {A} e.

(** ** File system and world *)

(** Paths are lists of components relative to [root_dir]. *)
Inductive kind := KFile | KDir.

Definition path := list string.
Definition fsys := gmap (list string) kind.
Definition environ := gmap string string.

Record world := mk_world {
  w_fs : gmap (list string) kind;        (* files under root_dir *)
  w_environ : gmap string string;        (* os.environ *)
  w_time : string;                       (* time.strftime(..., time.gmtime()) *)
  w_system : string;                     (* platform.system() *)
  w_machine : string                     (* platform.machine() *)
}.

Definition set_fs (w : world) (fs : gmap (list string) kind) : world :=
  mk_world fs (w_environ w) (w_time w) (w_system w) (w_machine w).

(** ** Printed output and instrumentation *)

Record build_info := mk_build_info {
  bi_timestamp : string;
  bi_go_version : string;
  bi_git_commit : string;
  bi_git_branch : string;
  bi_git_dirty : bool;
  bi_platform : string;
  bi_architecture : string
}.

(** [EvHeader] .. [EvOut] are the lines printed by [print_header],
    [print_step], [print_success], [print_error], [print_warning] and plain
    [print].  [EvSpawn] records each [subprocess.run] call with the
    environment the child inherits, [EvInvoke] each call of a pipeline
    step's action and [EvBuildInfo] the record bound to [build_info] in
    [validate]. *)
Inductive event :=
| EvHeader (s : string)
| EvStep (s : string)
| EvSuccess (s : string)
| EvError (s : string)
| EvWarning (s : string)
| EvOut (s : string)
| EvSpawn (cmd : list string) (cwd : string) (env : gmap string string)
| EvInvoke (name : string)
| EvBuildInfo (bi : build_info).

Record state := mk_state { st_w : world; st_log : list event }.

(** ** The monad *)

Definition M (A : Type) := state -> res A * state.

Definition ret {A} (a : A) : M A := fun s => (Ret a, s).
Definition raise {A} (e : exn) : M A := fun s => (Raise e, s).
Definition bind {A B} (m : M A) (k : A -> M B) : M B :=
  fun s => match m s with
           | (Ret a, s') => k a s'
           | (Raise e, s') => (Raise e, s')
           end.

Global Instance M_ret : MRet M := @ret.
Global Instance M_bind : MBind M := fun A B k m => bind m k.

Definition emit (e : event) : M unit :=
  fun s => (Ret tt, mk_state (st_w s) (app (st_log s) [e])).
Definition get_world : M world := fun s => (Ret (st_w s), s).
Definition put_world (w : world) : M unit :=
  fun s => (Ret tt, mk_state w (st_log s)).

Definition print_header (t : string) : M unit := emit (EvHeader t).
Definition print_step (t : string) : M unit := emit (EvStep t).
Definition print_success (t : string) : M unit := emit (EvSuccess t).
Definition print_error (t : string) : M unit := emit (EvError t).
Definition print_warning (t : string) : M unit := emit (EvWarning t).
Definition print (t : string) : M unit := emit (EvOut t).

(** ** Strings *)

Fixpoint join (sep : string) (l : list string) : string :=
  match l with
  | [] => ""
  | [x] => x
  | x :: l' => x ++ sep ++ join sep l'
  end.

Definition is_space (c : ascii) : bool :=
  match nat_of_ascii c with
  | 9 | 10 | 11 | 12 | 13 | 32 => true
  | _ => false
  end.

Fixpoint lstrip (s : string) : string :=
  match s with
  | EmptyString => EmptyString
  | String c s' => if is_space c then lstrip s' else s
  end.

Fixpoint rev_str (s : string) (acc : string) : string :=
  match s with
  | EmptyString => acc
  | String c s' => rev_str s' (String c acc)
  end.

(** [str.strip()] on ASCII whitespace. *)
Definition strip (s : string) : string :=
  rev_str (lstrip (rev_str (lstrip s) EmptyString)) EmptyString.

(** ** The process oracle *)

Record completed := mk_completed { returncode : Z; stdout : string; stderr : string }.

(** What [subprocess.run] does: the process ran to completion, the
    executable was not found ([FileNotFoundError]), or spawning failed with
    another [OSError] (e.g. [PermissionError]). *)
Inductive spawn_outcome :=
| Completed (c : completed)
| NotFound
| OSFailure (e : exn).

Section Runner.

Variable exec : world -> list string -> string -> gmap string string -> spawn_outcome * world.
Variable root_dir : string.

Definition path_str (p : list string) : string := join "/" (root_dir :: p).

Definition build_dir : list string := ["build"].

(** [self.binary_name], set in [__init__] from [platform.system()]. *)
Definition binary_name (w : world) : string :=
  if String.eqb (w_system w) "Windows" then "shoal.exe" else "shoal".

(** [subprocess.run(cmd, cwd=cwd or self.root_dir, capture_output=True,
    text=True, check=False)]: no [env=] argument, so the child inherits
    [os.environ]. *)
Definition subprocess_run (cmd : list string) : M spawn_outcome :=
  fun s =>
    let w := st_w s in
    let '(o, w') := exec w cmd root_dir (w_environ w) in
    (Ret o, mk_state w' (app (st_log s) [EvSpawn cmd root_dir (w_environ w)])).

Definition not_found_msg (c : string) : string := "Command not found: " ++ c.

Definition run_command (cmd : list string) (check : bool) : M (Z * string * string) :=
  o ← subprocess_run cmd ;
  match o with
  | Completed r =>
      (if check && negb (Z.eqb (returncode r) 0) then
         print_error ("Command failed: " ++ join " " cmd) ;;
         (if negb (String.eqb (stdout r) "") then print ("STDOUT:" ++ String "010" (stdout r)) else ret tt) ;;
         (if negb (String.eqb (stderr r) "") then print ("STDERR:" ++ String "010" (stderr r)) else ret tt)
       else ret tt) ;;
      ret (returncode r, stdout r, stderr r)
  | NotFound =>
      match cmd with
      | c :: _ =>
          print_error (not_found_msg c) ;;
          ret (1%Z, "", not_found_msg c)
      | [] => raise (mk_exn ExcException "IndexError" "list index out of range")
      end
  | OSFailure e => raise e
  end.

(** ** File-system helpers *)

Fixpoint is_prefix (p q : list string) : bool :=
  match p, q with
  | [], _ => true
  | x :: p', y :: q' => String.eqb x y && is_prefix p' q'
  | _ :: _, [] => false
  end.

Definition exists_path (w : world) (p : list string) : bool :=
  match w_fs w !! p with Some _ => true | None => false end.

Definition os_error (ty msg : string) : exn := mk_exn ExcException ty msg.

(** [self.build_dir.mkdir(exist_ok=True)] *)
Definition mkdir_build : M unit :=
  w ← get_world ;
  match w_fs w !! build_dir with
  | Some KDir => ret tt
  | Some KFile => raise (os_error "FileExistsError" (path_str build_dir))
  | None => put_world (set_fs w (<[build_dir := KDir]> (w_fs w)))
  end.

(** ** [build_for_platform] and [build_all_platforms] *)

Definition SUPPORTED_PLATFORMS : list (string * string) :=
  [("linux", "amd64"); ("windows", "amd64"); ("darwin", "amd64");
   ("linux", "arm64"); ("darwin", "arm64")].

Definition platform_ext (goos : string) : string :=
  if String.eqb goos "windows" then ".exe" else "".

Definition platform_binary_name (goos goarch : string) : string :=
  "shoal-" ++ goos ++ "-" ++ goarch ++ platform_ext goos.

Definition go_build_cmd (out : string) : list string :=
  ["go"; "build"; "-ldflags"; "-s -w -extldflags=-static";
   "-tags"; "netgo,osusergo"; "-o"; out; "./cmd/shoal"].

(** The size printed after a successful build is not modelled. *)
Definition build_for_platform (goos goarch : string) : M bool :=
  print_step ("Building for " ++ goos ++ "/" ++ goarch) ;;
  mkdir_build ;;
  let binary_path := app build_dir [platform_binary_name goos goarch] in
  w ← get_world ;
  let env := <["GOARCH" := goarch]> (<["GOOS" := goos]> (w_environ w)) in
  let cmd := go_build_cmd (path_str binary_path) in
  '(ret_code, _, _) ← run_command cmd true ;
  w' ← get_world ;
  if negb (Z.eqb ret_code 0) || negb (exists_path w' binary_path) then
    print_error ("Failed to build for " ++ goos ++ "/" ++ goarch) ;;
    ret false
  else
    print_success ("Built: " ++ path_str binary_path) ;;
    ret true.

(** The loop of [build_all_platforms]: [ok] is computed before
    [all_ok and ok], so every target is built. *)
Fixpoint build_all_loop (all_ok : bool) (ps : list (string * string)) : M bool :=
  match ps with
  | [] => ret all_ok
  | (goos, goarch) :: ps' =>
      ok ← build_for_platform goos goarch ;
      build_all_loop (all_ok && ok) ps'
  end.

Definition build_all_platforms : M bool :=
  print_header "Building for all supported platforms" ;;
  build_all_loop true SUPPORTED_PLATFORMS.

(** ** [clean] *)

Definition ends_with (suf s : string) : bool :=
  let n := String.length s in
  let m := String.length suf in
  (m <=? n)%nat && String.eqb (substring (n - m) m s) suf.

(** [fnmatch] for the patterns [clean] uses: a literal name or ["*" ++ suffix]. *)
Definition name_matches (pat name : string) : bool :=
  match pat with
  | String "*" suf => ends_with suf name
  | _ => String.eqb pat name
  end.

Definition test_artifacts : list string :=
  ["coverage.out"; "coverage.html"; "coverage.txt"; "*.test"; "*.db";
   "*.sqlite"; "*.sqlite3"].

Definition last_name (p : list string) : option string := last p.

(** [for file_path in self.root_dir.rglob(pattern): if file_path.is_file():
    file_path.unlink()] *)
Definition rglob_unlink_keep (pat : string) (pk : list string * kind) : bool :=
  match pk.2, last_name pk.1 with
  | KFile, Some n => negb (name_matches pat n)
  | _, _ => true
  end.

Definition rglob_unlink (pat : string) (fs : gmap (list string) kind) : gmap (list string) kind :=
  filter (fun pk => rglob_unlink_keep pat pk = true) fs.

Definition remove_test_artifacts : M unit :=
  w ← get_world ;
  put_world (set_fs w (fold_left (fun fs pat => rglob_unlink pat fs) test_artifacts (w_fs w))).

Definition clean : M bool :=
  print_step "Cleaning build artifacts" ;;
  w ← get_world ;
  (match w_fs w !! build_dir with
   | Some KDir =>
       put_world (set_fs w (filter (fun pk : list string * kind => is_prefix build_dir pk.1 = false) (w_fs w))) ;;
       print_success "Removed build directory"
   | Some KFile => raise (os_error "NotADirectoryError" (path_str build_dir))
   | None => ret tt
   end) ;;
  w ← get_world ;
  let bp := [binary_name w] in
  (match w_fs w !! bp with
   | Some KFile =>
       put_world (set_fs w (delete bp (w_fs w))) ;;
       print_success ("Removed " ++ binary_name w)
   | Some KDir => raise (os_error "IsADirectoryError" (path_str bp))
   | None => ret tt
   end) ;;
  remove_test_artifacts ;;
  print_success "Cleaned test artifacts" ;;
  ret true.

(** ** [generate_build_info] *)

Definition build_info_path : list string := app build_dir ["build-info.json"].

(** [build_info_path.write_text(...)]: fails when the build directory is
    missing or the target is a directory; the JSON text is not modelled. *)
Definition write_build_info : M unit :=
  w ← get_world ;
  match w_fs w !! build_dir, w_fs w !! build_info_path with
  | Some KDir, Some KDir => raise (os_error "IsADirectoryError" (path_str build_info_path))
  | Some KDir, _ => put_world (set_fs w (<[build_info_path := KFile]> (w_fs w)))
  | Some KFile, _ => raise (os_error "NotADirectoryError" (path_str build_info_path))
  | None, _ => raise (os_error "FileNotFoundError" (path_str build_info_path))
  end.

Definition git_commit_cmd : list string := ["git"; "rev-parse"; "HEAD"].
Definition git_branch_cmd : list string := ["git"; "branch"; "--show-current"].
Definition git_status_cmd : list string := ["git"; "status"; "--porcelain"].
Definition go_version_cmd : list string := ["go"; "version"].

Definition generate_build_info : M build_info :=
  '(rc, out, _) ← run_command git_commit_cmd false ;
  let git_commit := if Z.eqb rc 0 then substring 0 8 (strip out) else "unknown" in
  '(rc, out, _) ← run_command git_branch_cmd false ;
  let git_branch := if Z.eqb rc 0 then strip out else "unknown" in
  '(rc, out, _) ← run_command git_status_cmd false ;
  let git_dirty := if Z.eqb rc 0 then negb (String.eqb (strip out) "") else false in
  '(rc, go_version, _) ← run_command go_version_cmd false ;
  let go_version := if Z.eqb rc 0 then strip go_version else "unknown" in
  w ← get_world ;
  let bi := mk_build_info (w_time w) go_version git_commit git_branch git_dirty
                          (w_system w) (w_machine w) in
  write_build_info ;;
  ret bi.

(** ** [validate] *)

(** A pipeline step: its name and its action, a zero-argument method that
    acts on the world and returns a bool or raises.  What the action prints
    itself is not recorded. *)
Definition step := (string * (world -> res bool * world))%type.

(** [step_func()] inside [try]: the raised exception is returned as a value. *)
Definition try_action (f : world -> res bool * world) : M (res bool) :=
  fun s => let '(r, w') := f (st_w s) in (Ret r, mk_state w' (st_log s)).

Fixpoint run_steps (steps : list step) : M bool :=
  match steps with
  | [] =>
      bi ← generate_build_info ;
      emit (EvBuildInfo bi) ;;
      print_success "Build info generated" ;;
      ret true
  | (name, f) :: rest =>
      emit (EvInvoke name) ;;
      r ← try_action f ;
      match r with
      | Ret true => run_steps rest
      | Ret false => print_error ("Step '" ++ name ++ "' failed") ;; ret false
      | Raise e =>
          match exn_class e with
          | ExcException =>
              print_error ("Step '" ++ name ++ "' failed with exception: " ++ exn_msg e) ;;
              ret false
          | ExcBaseOnly => raise e
          end
      end
  end.

(** [validate], for the step list it is given ([Prerequisites],
    [Dependencies], [Format], [Lint], [Tests], [Security], [Build] in the
    source). *)
Definition validate (steps : list step) : M bool :=
  print_header "Shoal Build & Test Validation" ;;
  run_steps steps.

End Runner.

(** ** String helpers for [main] and [run_tests] *)

(** [s.split(sep)] for a separator [p] matches, one character wide: one
    piece more than there are separators, empty pieces kept. *)
Fixpoint split_pred (p : ascii -> bool) (s : string) : list string :=
  match s with
  | EmptyString => [""]
  | String c s' =>
      if p c then "" :: split_pred p s'
      else match split_pred p s' with
           | x :: xs => String c x :: xs
           | [] => [String c ""]
           end
  end.

(** [s.split(c)] for a one-character separator [c]. *)
Definition split_char (c : ascii) (s : string) : list string :=
  split_pred (fun d => Ascii.eqb d c) s.

(** [s.split()]: runs of whitespace separate, empty pieces dropped. *)
Definition words (s : string) : list string :=
  List.filter (fun x => negb (String.eqb x "")) (split_pred is_space s).

(** [pat in s] *)
Fixpoint contains (pat s : string) : bool :=
  String.prefix pat s || match s with
                  | EmptyString => false
                  | String _ s' => contains pat s'
                  end.

Fixpoint count_char (c : ascii) (s : string) : nat :=
  match s with
  | EmptyString => 0
  | String d s' => (if Ascii.eqb d c then 1 else 0) + count_char c s'
  end.

(** Whether a completed [run_command] call gives return code 0: a missing
    executable gives 1. *)
Definition outcome_ok (o : spawn_outcome) : bool :=
  match o with
  | Completed c => (returncode c =? 0)%Z
  | _ => false
  end.

(** The [argparse] choices of [main]'s positional argument. *)
Inductive command :=
| CmdBuild | CmdTest | CmdClean | CmdFmt | CmdLint | CmdCoverage | CmdDeps
| CmdValidate | CmdBuildAll.

(** [sys.exit(code)] raises [SystemExit], a [BaseException]. *)
Definition system_exit (code : string) : exn := mk_exn ExcBaseOnly "SystemExit" code.

Section Commands.

Variable exec : world -> list string -> string -> gmap string string -> spawn_outcome * world.
Variable root_dir : string.

Local Abbreviation run_command := (run_command exec root_dir).

(** ** The other steps of [BuildRunner] *)

Definition go_mod_path : list string := ["go.mod"].

Definition check_prerequisites : M bool :=
  print_step "Checking prerequisites" ;;
  '(ret_code, out, _) ← run_command go_version_cmd false ;
  if negb (ret_code =? 0)%Z then
    print_error "Go is not installed or not in PATH" ;;
    ret false
  else
    let go_version := strip out in
    print_success ("Found " ++ go_version) ;;
    w ← get_world ;
    if negb (exists_path w go_mod_path) then
      print_error "go.mod not found - not in a Go module directory" ;;
      ret false
    else
      print_success "All prerequisites met" ;;
      ret true.

Definition go_mod_download_cmd : list string := ["go"; "mod"; "download"].
Definition go_mod_verify_cmd : list string := ["go"; "mod"; "verify"].

Definition download_dependencies : M bool :=
  print_step "Downloading dependencies" ;;
  '(ret_code, _, _) ← run_command go_mod_download_cmd true ;
  if negb (ret_code =? 0)%Z then ret false
  else
    '(ret_code, _, _) ← run_command go_mod_verify_cmd true ;
    if negb (ret_code =? 0)%Z then
      print_error "Dependency verification failed" ;;
      ret false
    else
      print_success "Dependencies downloaded and verified" ;;
      ret true.

Definition go_fmt_cmd : list string := ["go"; "fmt"; "./..."].

Definition format_code : M bool :=
  print_step "Formatting Go code" ;;
  '(ret_code, _, _) ← run_command go_fmt_cmd true ;
  if negb (ret_code =? 0)%Z then ret false
  else
    print_success "Code formatted" ;;
    ret true.

Definition golangci_version_cmd : list string := ["golangci-lint"; "--version"].
Definition golangci_run_cmd : list string := ["golangci-lint"; "run"].
Definition go_vet_cmd : list string := ["go"; "vet"; "./..."].

Definition lint_code : M bool :=
  print_step "Linting code" ;;
  '(ret_code, _, _) ← run_command golangci_version_cmd false ;
  if (ret_code =? 0)%Z then
    '(ret_code, _, _) ← run_command golangci_run_cmd true ;
    if negb (ret_code =? 0)%Z then ret false
    else
      print_success "Linting passed (golangci-lint)" ;;
      ret true
  else
    '(ret_code, _, _) ← run_command go_vet_cmd true ;
    if negb (ret_code =? 0)%Z then ret false
    else
      print_success "Static analysis passed (go vet)" ;;
      ret true.

Definition go_test_cmd (with_coverage : bool) : list string :=
  app ["go"; "test"] (app (if with_coverage then ["-coverprofile=coverage.out"] else []) ["-v"; "./..."]).

Definition cover_func_cmd : list string := ["go"; "tool"; "cover"; "-func=coverage.out"].
Definition cover_html_cmd : list string :=
  ["go"; "tool"; "cover"; "-html=coverage.out"; "-o"; "coverage.html"].

(** [for line in coverage_output.strip().split('\n'): if 'total:' in line:
    ... break] *)
Definition coverage_line (coverage_output : string) : option string :=
  List.find (contains "total:") (split_char "010" (strip coverage_output)).

Definition print_coverage (coverage_output : string) : M unit :=
  match coverage_line coverage_output with
  | Some line =>
      match rev (words line) with
      | coverage :: _ => print_success ("Test coverage: " ++ coverage)
      | [] => raise (mk_exn ExcException "IndexError" "list index out of range")
      end
  | None => ret tt
  end.

Definition run_tests (with_coverage : bool) : M bool :=
  print_step "Running tests" ;;
  '(ret_code, _, _) ← run_command (go_test_cmd with_coverage) true ;
  if negb (ret_code =? 0)%Z then ret false
  else
    print_success "All tests passed" ;;
    w ← get_world ;
    (if with_coverage && exists_path w ["coverage.out"] then
       '(ret_code, coverage_output, _) ← run_command cover_func_cmd false ;
       if (ret_code =? 0)%Z then
         print_coverage coverage_output ;;
         run_command cover_html_cmd false ;;
         w ← get_world ;
         if exists_path w ["coverage.html"] then
           print_success "Coverage report generated: coverage.html"
         else ret tt
       else ret tt
     else ret tt) ;;
    ret true.

(** The printed size of the binary is not modelled. *)
Definition build_binary : M bool :=
  print_step "Building application" ;;
  mkdir_build root_dir ;;
  w ← get_world ;
  let binary_path := app build_dir [binary_name w] in
  '(ret_code, _, _) ← run_command (go_build_cmd (path_str root_dir binary_path)) true ;
  if negb (ret_code =? 0)%Z then ret false
  else
    w' ← get_world ;
    if negb (exists_path w' binary_path) then
      print_error "Binary was not created" ;;
      ret false
    else
      print_success ("Binary built: " ++ path_str root_dir binary_path) ;;
      '(ret_code, _, _) ← run_command [path_str root_dir binary_path; "-h"] false ;
      (if (ret_code =? 0)%Z then print_success "Binary execution test passed"
       else print_warning "Binary execution test failed (may be normal)") ;;
      ret true.

Definition gosec_version_cmd : list string := ["gosec"; "-version"].
Definition gosec_run_cmd : list string := ["gosec"; "./..."].

Definition run_security_checks : M bool :=
  print_step "Running security checks" ;;
  '(ret_code, _, _) ← run_command gosec_version_cmd false ;
  if (ret_code =? 0)%Z then
    '(ret_code, _, _) ← run_command gosec_run_cmd true ;
    if negb (ret_code =? 0)%Z then
      print_warning "Security scan found issues" ;;
      ret false
    else
      print_success "Security scan passed" ;;
      ret true
  else
    print_warning "gosec not available - skipping security scan" ;;
    ret true.

(** [elapsed] is [elapsed_time] formatted with [:.1f]; colours are not
    modelled. *)
Definition print_summary (success : bool) (elapsed : string) : M unit :=
  print_header "Build Summary" ;;
  let status := if success then "SUCCESS" else "FAILED" in
  print ("Status: " ++ status) ;;
  print ("Time: " ++ elapsed ++ "s") ;;
  w ← get_world ;
  if success && exists_path w build_dir then
    let binary_path := app build_dir [binary_name w] in
    if exists_path w binary_path then print ("Binary: " ++ path_str root_dir binary_path)
    else ret tt
  else ret tt.

(** ** [validate]'s step list and [main] *)

(** A bound method used as a pipeline step (what it prints is dropped, as
    for every step of [validate]). *)
Definition as_step (m : M bool) : world -> res bool * world :=
  fun w => let '(r, s') := m (mk_state w []) in (r, st_w s').

Definition validate_steps : list step :=
  [("Prerequisites", as_step check_prerequisites);
   ("Dependencies", as_step download_dependencies);
   ("Format", as_step format_code);
   ("Lint", as_step lint_code);
   ("Tests", as_step (run_tests true));
   ("Security", as_step run_security_checks);
   ("Build", as_step build_binary)].

(** Python's [a() and b()] on bools: [b] runs only when [a()] is True. *)
Definition and_then (m1 m2 : M bool) : M bool :=
  bind m1 (fun b => if b then m2 else ret false).

Definition platform_error : string := "--platform must be in the form os/arch, e.g., linux/amd64".

(** The body of [main]'s [try], for the parsed command and [--platform]. *)
Definition run_cli_command (c : command) (platform : option string) : M bool :=
  match c with
  | CmdClean => clean root_dir
  | CmdDeps => and_then check_prerequisites download_dependencies
  | CmdFmt => and_then check_prerequisites format_code
  | CmdLint => and_then check_prerequisites lint_code
  | CmdTest => and_then check_prerequisites (and_then download_dependencies (run_tests false))
  | CmdCoverage => and_then check_prerequisites (and_then download_dependencies (run_tests true))
  | CmdBuild =>
      match platform with
      | Some p =>
          if String.eqb p "" then
            and_then check_prerequisites (and_then download_dependencies build_binary)
          else
            match split_char "/" p with
            | [goos; goarch] =>
                and_then check_prerequisites
                  (and_then download_dependencies (build_for_platform exec root_dir goos goarch))
            | _ => print_error platform_error ;; raise (system_exit "1")
            end
      | None => and_then check_prerequisites (and_then download_dependencies build_binary)
      end
  | CmdBuildAll => and_then check_prerequisites (and_then download_dependencies (build_all_platforms exec root_dir))
  | CmdValidate => validate exec root_dir validate_steps
  end.

(** [try: ... except ...]: the outcome of [m] as a value, effects kept. *)
Definition try_m {A} (m : M A) : M (res A) :=
  fun s => let '(r, s') := m s in (Ret r, s').

(** [main] after argument parsing: it ends by raising [SystemExit]. *)
Definition main (c : command) (platform : option string) (elapsed : string) : M unit :=
  r ← try_m (run_cli_command c platform) ;
  bind (match r with
             | Ret b => ret b
             | Raise e =>
                 if String.eqb (exn_type e) "KeyboardInterrupt" then
                   print_error "Build interrupted by user" ;;
                   ret false
                 else
                   match exn_class e with
                   | ExcException =>
                       print_error ("Build failed with exception: " ++ exn_msg e) ;;
                       ret false
                   | ExcBaseOnly => raise e
                   end
             end) (fun success =>
  print_summary success elapsed ;;
  raise (system_exit (if success then "0" else "1"))).

End Commands.

Section Auxiliary.

Variable exec : world -> list string -> string -> gmap string string -> spawn_outcome * world.
Variable root_dir : string.

(** The child processes started in a piece of log. *)
Fixpoint spawns (l : list event) : list (list string * gmap string string) :=
  match l with
  | [] => []
  | EvSpawn c _ env :: l' => (c, env) :: spawns l'
  | _ :: l' => spawns l'
  end.

(** Every step of [steps], run from [w], returns True; the last leaves [w']. *)
Inductive all_succeed : list step -> world -> world -> Prop :=
| all_succeed_nil w : all_succeed [] w w
| all_succeed_cons name f rest w w1 w' :
    f w = (Ret true, w1) -> all_succeed rest w1 w' -> all_succeed ((name, f) :: rest) w w'.

(** Steps [0 .. k-1] return True and step [k], named [n], is the first
    that does not: it returns False or raises ([r]), leaving [w']. *)
Inductive stops_at : list step -> world -> nat -> string -> res bool -> world -> Prop :=
| stops_here name f rest w r w' :
    f w = (r, w') -> r <> Ret true -> stops_at ((name, f) :: rest) w 0 name r w'
| stops_later name f rest w w1 k n r w' :
    f w = (Ret true, w1) -> stops_at rest w1 k n r w' -> stops_at ((name, f) :: rest) w (S k) n r w'.

Definition step_names (steps : list step) : list string := map fst steps.

Definition invoked (names : list string) : list event := map EvInvoke names.

Definition validate_title : string := "Shoal Build & Test Validation".

(** The outcome of [clean]: its result and the world it leaves. *)
Definition clean_outcome (s : state) : res bool * world := (fst (clean root_dir s), st_w (snd (clean root_dir s))).

Definition artifact_keep (pk : list string * kind) : bool :=
  forallb (fun pat => rglob_unlink_keep pat pk) test_artifacts.

Definition keep_artifacts (fs : gmap (list string) kind) : gmap (list string) kind :=
  filter (fun pk => artifact_keep pk = true) fs.

(** What [clean] does once the build directory is absent. *)
Definition clean_rest (w : world) : res bool * world :=
  match w_fs w !! [binary_name w] with
  | Some KDir => (Raise (os_error "IsADirectoryError" (path_str root_dir [binary_name w])), w)
  | Some KFile => (Ret true, set_fs w (keep_artifacts (delete [binary_name w] (w_fs w))))
  | None => (Ret true, set_fs w (keep_artifacts (w_fs w)))
  end.

Definition without_build (fs : gmap (list string) kind) : gmap (list string) kind :=
  filter (fun pk : list string * kind => is_prefix build_dir pk.1 = false) fs.

(** [clean]'s outcome depends on the world only. *)
Definition clean_world (w : world) : res bool * world :=
  match w_fs w !! build_dir with
  | Some KFile => (Raise (os_error "NotADirectoryError" (path_str root_dir build_dir)), w)
  | Some KDir => clean_rest (set_fs w (without_build (w_fs w)))
  | None => clean_rest w
  end.

(** A probe that fails without raising: missing executable or nonzero exit. *)
Definition soft_fail (o : spawn_outcome) : bool :=
  match o with
  | NotFound => true
  | Completed c => negb (returncode c =? 0)%Z
  | OSFailure _ => false
  end.

(** The per-target outcomes of building each target in turn: the list of
    the values [build_for_platform] returns, in the order of the targets. *)
Fixpoint per_target_results (ps : list (string * string)) : M (list bool) :=
  match ps with
  | [] => mret []
  | (goos, goarch) :: ps' =>
      ok ← build_for_platform exec root_dir goos goarch ;
      oks ← per_target_results ps' ;
      mret (ok :: oks)
  end.

(** The [print_step] lines of a piece of log. *)
Fixpoint step_lines (l : list event) : list string :=
  match l with
  | [] => []
  | EvStep t :: l' => t :: step_lines l'
  | _ :: l' => step_lines l'
  end.

Definition building_line (t : string * string) : string := "Building for " ++ t.1 ++ "/" ++ t.2.

Definition matrix_title : string := "Building for all supported platforms".

(** The exception of the first outcome in [os] whose spawn raised, if any. *)
Fixpoint first_raise (os : list spawn_outcome) : option exn :=
  match os with
  | [] => None
  | OSFailure e :: _ => Some e
  | _ :: rest => first_raise rest
  end.

End Auxiliary.

(** ** A concrete environment for the examples *)

Definition ex_root : string := "/r".

Definition target_path (goos goarch : string) : string :=
  path_str ex_root (app build_dir [platform_binary_name goos goarch]).

(** The compiler fails for the target whose output path is [bad] and
    otherwise creates the output file; [git] is not installed; [go version]
    answers. *)
Definition ex_exec (bad : string) (w : world) (cmd : list string) (cwd : string)
    (env : gmap string string) : spawn_outcome * world :=
  match cmd with
  | [g; b; _; _; _; _; o; out; _] =>
      if String.eqb g "go" && String.eqb b "build" && String.eqb o "-o" then
        if String.eqb out bad then (Completed (mk_completed 1 "" "build failed"), w)
        else match list_find (fun t => String.eqb out (target_path t.1 t.2) = true) SUPPORTED_PLATFORMS with
             | Some (_, (goos, goarch)) =>
                 (Completed (mk_completed 0 "" ""),
                  set_fs w (<[app build_dir [platform_binary_name goos goarch] := KFile]> (w_fs w)))
             | None => (Completed (mk_completed 0 "" ""), w)
             end
      else (NotFound, w)
  | [g; v] =>
      if String.eqb g "go" && String.eqb v "version" then
        (Completed (mk_completed 0 "go version go1.22.0 linux/amd64
" ""), w)
      else (NotFound, w)
  | _ => (NotFound, w)
  end.

Definition ex_world (fs : gmap (list string) kind) : world :=
  mk_world fs (<["PATH" := "/usr/bin"]> ∅) "2026-10-18 00:00:00 UTC" "Linux" "x86_64".

Definition ex_state : state := mk_state (ex_world ∅) [].

(** A file system in which [build/] exists. *)
Definition ex_build_fs : gmap (list string) kind := <[build_dir := KDir]> ∅.

(** A file system holding one source file and nothing [clean] removes. *)
Definition ex_src_fs : gmap (list string) kind := {[ ["src"; "main.go"] := KFile ]}.

(** [git] is installed but may not be executed. *)
Definition ex_perm : exn := mk_exn ExcException "PermissionError" "[Errno 13] Permission denied: 'git'".

Definition ex_exec_denied (w : world) (cmd : list string) (cwd : string)
    (env : gmap string string) : spawn_outcome * world :=
  match cmd with
  | g :: _ => if String.eqb g "git" then (OSFailure ex_perm, w) else ex_exec "" w cmd cwd env
  | [] => ex_exec "" w cmd cwd env
  end.

Definition ex_kbd : exn := mk_exn ExcBaseOnly "KeyboardInterrupt" "".

Definition ex_value_error : exn := mk_exn ExcException "ValueError" "bad value".

(** Steps whose actions return True, return False or raise, leaving the world as it is. *)
Definition ex_ok (name : string) : step := (name, fun w => (Ret true, w)).
Definition ex_fail (name : string) : step := (name, fun w => (Ret false, w)).
Definition ex_raise (name : string) (e : exn) : step := (name, fun w => (Raise e, w)).

Definition ex_steps_lint : list step := [ex_ok "Build"; ex_fail "Lint"; ex_ok "Test"].

Definition ex_linux_build : state := snd (build_for_platform (ex_exec "") ex_root "linux" "amd64" ex_state).

(** The record [generate_build_info] produces in [ex_world ex_build_fs]
    when [git] is missing. *)
Definition ex_bi : build_info :=
  mk_build_info "2026-10-18 00:00:00 UTC" "go version go1.22.0 linux/amd64" "unknown" "unknown" false "Linux" "x86_64".

(** Exit statuses of the example tools. *)
Definition ex_exit0 : spawn_outcome := Completed (mk_completed 0 "" "").
Definition ex_exit1 : spawn_outcome := Completed (mk_completed 1 "" "failed").

(** The commands listed in [ok] exit 0 and every other command exits 1;
    no process changes the world. *)
Definition ex_exec_ok (ok : list (list string)) (w : world) (cmd : list string) (cwd : string)
    (env : gmap string string) : spawn_outcome * world :=
  if bool_decide (cmd ∈ ok) then (ex_exit0, w) else (ex_exit1, w).

(** Spawning any process raises [e]. *)
Definition ex_exec_raise (e : exn) (w : world) (cmd : list string) (cwd : string)
    (env : gmap string string) : spawn_outcome * world := (OSFailure e, w).

(** The path of the native binary under [ex_root]. *)
Definition ex_bp : string := path_str ex_root (app build_dir ["shoal"]).

(** The native build writes [build/shoal]; the built binary's [-h] exits 2;
    [git rev-parse HEAD] prints a full hash; the rest answers as [ex_exec ""]. *)
Definition ex_exec_native (w : world) (cmd : list string) (cwd : string)
    (env : gmap string string) : spawn_outcome * world :=
  if bool_decide (cmd = go_build_cmd ex_bp) then
    (ex_exit0, set_fs w (<[app build_dir ["shoal"] := KFile]> (w_fs w)))
  else if bool_decide (cmd = [ex_bp; "-h"]) then
    (Completed (mk_completed 2 "" "flag provided but not defined: -h"), w)
  else if bool_decide (cmd = git_commit_cmd) then
    (Completed (mk_completed 0 "0123456789abcdef0123456789abcdef01234567
" ""), w)
  else ex_exec "" w cmd cwd env.

(** The world [build_binary] starts the compiler in, from [ex_state]. *)
Definition ex_build_world : world := set_fs (ex_world ∅) (<[build_dir := KDir]> ∅).

(** The world after the native build of [ex_exec_native]. *)
Definition ex_native_world : world :=
  set_fs ex_build_world (<[app build_dir ["shoal"] := KFile]> (w_fs ex_build_world)).

(** A project root holding [go.mod]. *)
Definition ex_go_mod_fs : gmap (list string) kind := {[ go_mod_path := KFile ]}.

(** The record [generate_build_info] produces under [ex_exec_native] once
    [build/] exists. *)
Definition ex_native_bi : build_info :=
  mk_build_info "2026-10-18 00:00:00 UTC" "go version go1.22.0 linux/amd64" "01234567" "unknown" false "Linux" "x86_64".

Definition ex_info_state : state :=
  snd (generate_build_info ex_exec_native ex_root (mk_state (ex_world ex_build_fs) [])).

Definition ex_sysexit : exn := system_exit "2".

End Shoal.

Import Shoal.

(** * Properties *)

Section Properties.

Variable exec : world -> list string -> string -> gmap string string -> spawn_outcome * world.
Variable root_dir : string.

Local Abbreviation run_command := (run_command exec root_dir).

Ltac mstep :=
  try unfold print_error, print, print_success, print_step, print_header, print_warning,
    mbind, M_bind, mret, M_ret, bind, ret, raise, emit, get_world, put_world in *;
  cbn [st_w st_log fst snd] in *.

(** C10: the returned triple and the world after the call are the same
    for [check=True] and [check=False]; the flag only changes what is printed. *)
Theorem run_command_check_only_prints (cmd : list string) (s : state) :
  fst (run_command cmd true s) = fst (run_command cmd false s) /\
  st_w (snd (run_command cmd true s)) = st_w (snd (run_command cmd false s)).
Proof.
  unfold Shoal.run_command, subprocess_run. mstep.
  destruct (exec (st_w s) cmd root_dir (w_environ (st_w s))) as [[r | | e] w'].
  - mstep. destruct (negb (returncode r =? 0)%Z); mstep; [|auto].
    destruct (negb (String.eqb (stdout r) "")), (negb (String.eqb (stderr r) "")); mstep; auto.
  - destruct cmd; mstep; auto.
  - mstep. auto.
Qed.

(** C5: when the executable of a non-empty command is not found,
    [run_command] returns normally with exit code 1, empty stdout and
    ["Command not found: " ++ cmd[0]] as stderr, the same [(int, str, str)]
    shape as any completed run. *)
Theorem run_command_not_found (c : string) (rest : list string) (check : bool) (s : state) (w' : world) :
  exec (st_w s) (c :: rest) root_dir (w_environ (st_w s)) = (NotFound, w') ->
  run_command (c :: rest) check s =
    (Ret (1%Z, "", "Command not found: " ++ c),
     mk_state w' (app (st_log s) [EvSpawn (c :: rest) root_dir (w_environ (st_w s));
                                  EvError ("Command not found: " ++ c)])).
Proof.
  intros Hx. unfold Shoal.run_command, subprocess_run. mstep.
  rewrite Hx. mstep. unfold not_found_msg. rewrite <- app_assoc. reflexivity.
Qed.

Lemma append_empty_r (x : string) : x ++ "" = x.
Proof. induction x as [|c x IH]; [reflexivity|exact (f_equal (String c) IH)]. Qed.

Lemma platform_binary_name_shape (goos goarch : string) :
  (goos = "windows" /\ platform_binary_name goos goarch = "shoal-" ++ goos ++ "-" ++ goarch ++ ".exe") \/
  (goos <> "windows" /\ platform_binary_name goos goarch = "shoal-" ++ goos ++ "-" ++ goarch).
Proof.
  unfold platform_binary_name, platform_ext.
  destruct (String.eqb_spec goos "windows") as [->|Hne].
  - left. split; reflexivity.
  - right. split; [exact Hne|]. rewrite append_empty_r. reflexivity.
Qed.

(** C8: a successful [build_for_platform goos goarch] leaves a file at
    [build/shoal-<goos>-<goarch>] (with [.exe] exactly for ["windows"]),
    and starts exactly one child process, the compiler, whose [-o] output
    is that path. *)
Theorem build_for_platform_artifact (goos goarch : string) (s s' : state) :
  build_for_platform exec root_dir goos goarch s = (Ret true, s') ->
  exists_path (st_w s') (app build_dir [platform_binary_name goos goarch]) = true /\
  (exists l, st_log s' = app (st_log s) l /\
     map fst (spawns l) = [go_build_cmd (path_str root_dir (app build_dir [platform_binary_name goos goarch]))]) /\
  ((goos = "windows" /\ platform_binary_name goos goarch = "shoal-" ++ goos ++ "-" ++ goarch ++ ".exe") \/
   (goos <> "windows" /\ platform_binary_name goos goarch = "shoal-" ++ goos ++ "-" ++ goarch)).
Proof.
  intros Hrun.
  unfold build_for_platform, mkdir_build, Shoal.run_command, subprocess_run in Hrun; mstep.
  repeat (case_match; mstep); simplify_eq; cbn [st_w st_log] in *.
  all: split; [|split; [|apply platform_binary_name_shape]].
  all: try (eexists; split; [rewrite <- ?app_assoc; reflexivity|reflexivity]).
  all: try match goal with
         | H : (_ || negb ?b) = false |- ?b = true =>
             apply orb_false_iff in H as [_ H]; apply negb_false_iff in H; exact H
         end.
Qed.

(** ** The step loop of [validate] *)

Local Abbreviation run_steps := (run_steps exec root_dir).
Local Abbreviation validate := (validate exec root_dir).
Local Abbreviation generate_build_info := (generate_build_info exec root_dir).

Lemma run_steps_all_succeed (steps : list step) (w w' : world) (l : list event) :
  all_succeed steps w w' ->
  run_steps steps (mk_state w l) = run_steps [] (mk_state w' (app l (invoked (step_names steps)))).
Proof.
  intros Hall. revert l. induction Hall as [w|name f rest w w1 w' Hf Hrest IH]; intros l.
  - rewrite app_nil_r. reflexivity.
  - cbn [Shoal.run_steps]. unfold try_action. mstep. rewrite Hf.
    rewrite IH. cbn [step_names invoked map]. rewrite <- app_assoc. reflexivity.
Qed.

Lemma stops_at_not_true (steps : list step) (w : world) (k : nat) (n : string) (r : res bool) (w' : world) :
  stops_at steps w k n r w' -> r <> Ret true.
Proof. induction 1; auto. Qed.

Lemma stops_at_name (steps : list step) (w : world) (k : nat) (n : string) (r : res bool) (w' : world) :
  stops_at steps w k n r w' -> nth_error (step_names steps) k = Some n.
Proof. induction 1; cbn; auto. Qed.

Lemma run_steps_stops_at (steps : list step) (w : world) (k : nat) (n : string) (r : res bool)
    (w' : world) (l : list event) :
  stops_at steps w k n r w' ->
  run_steps steps (mk_state w l) =
    match r with
    | Ret _ => (Ret false, mk_state w' (app l (app (invoked (firstn (S k) (step_names steps)))
                                              [EvError ("Step '" ++ n ++ "' failed")])))
    | Raise e =>
        match exn_class e with
        | ExcException =>
            (Ret false, mk_state w' (app l (app (invoked (firstn (S k) (step_names steps)))
                [EvError ("Step '" ++ n ++ "' failed with exception: " ++ exn_msg e)])))
        | ExcBaseOnly => (Raise e, mk_state w' (app l (invoked (firstn (S k) (step_names steps)))))
        end
    end.
Proof.
  intros Hstop. revert l.
  induction Hstop as [name f rest w r w' Hf Hr|name f rest w w1 k n r w' Hf Hrest IH]; intros l.
  - cbn [Shoal.run_steps]. unfold try_action. mstep. rewrite Hf.
    destruct r as [[|]|e]; [congruence| |]; mstep.
    + rewrite <- app_assoc. reflexivity.
    + destruct (exn_class e); mstep; rewrite <- ?app_assoc; reflexivity.
  - cbn [Shoal.run_steps]. unfold try_action. mstep. rewrite Hf. rewrite IH.
    destruct r as [b|e]; [|destruct (exn_class e)];
      cbn [step_names invoked firstn map fst]; rewrite <- !app_assoc; reflexivity.
Qed.

Lemma validate_unfold (steps : list step) (w : world) (l : list event) :
  validate steps (mk_state w l) = run_steps steps (mk_state w (app l [EvHeader validate_title])).
Proof. reflexivity. Qed.

Lemma steps_outcome_total (steps : list step) (w : world) :
  (exists w', all_succeed steps w w') \/ (exists k n r w', stops_at steps w k n r w').
Proof.
  revert w. induction steps as [|[name f] rest IH]; intros w.
  - left. eexists. constructor.
  - destruct (f w) as [r w1] eqn:Hf.
    destruct r as [[|]|e].
    + destruct (IH w1) as [[w' Hall]|[k [n [r' [w' Hstop]]]]].
      * left. exists w'. econstructor; eauto.
      * right. exists (S k), n, r', w'. econstructor; eauto.
    + right. exists 0, name, (Ret false), w1. constructor; [exact Hf|discriminate].
    + right. exists 0, name, (Raise e), w1. constructor; [exact Hf|discriminate].
Qed.

Lemma steps_outcome_exclusive (steps : list step) (w w' : world) (k : nat) (n : string)
    (r : res bool) (w'' : world) :
  all_succeed steps w w' -> stops_at steps w k n r w'' -> False.
Proof.
  intros Hall. revert k. induction Hall as [w|name f rest w w1 w' Hf Hrest IH]; intros k Hstop.
  - inversion Hstop.
  - inversion Hstop as [? ? ? ? ? ? Hf' Hr|? ? ? ? w1' ? ? ? ? Hf' Hrest']; subst.
    + rewrite Hf in Hf'. injection Hf' as <- _. auto.
    + rewrite Hf in Hf'. injection Hf' as <-. eauto.
Qed.

(** C1 (as amended): when the step at position [k] is the first whose
    action returns False, [validate] returns False, prints
    ["Step '<name>' failed"] for that step only and invokes no step after
    [k].  When every action returns True, no step failure is printed and
    [validate] returns True exactly when [generate_build_info], which runs
    after the loop and outside its [try], returns normally; an exception it
    raises propagates out of [validate]. *)
Theorem validate_first_false_step (steps : list step) (w : world) (l : list event) :
  (forall k n w', stops_at steps w k n (Ret false) w' ->
     nth_error (step_names steps) k = Some n /\
     validate steps (mk_state w l) =
       (Ret false, mk_state w' (app l (EvHeader validate_title ::
          app (invoked (firstn (S k) (step_names steps))) [EvError ("Step '" ++ n ++ "' failed")])))) /\
  (forall w', all_succeed steps w w' ->
     validate steps (mk_state w l) =
       match generate_build_info (mk_state w' (app l (EvHeader validate_title :: invoked (step_names steps)))) with
       | (Ret bi, s2) =>
           (Ret true, mk_state (st_w s2) (app (st_log s2) [EvBuildInfo bi; EvSuccess "Build info generated"]))
       | (Raise e, s2) => (Raise e, s2)
       end).
Proof.
  split.
  - intros k n w' Hstop. split; [eapply stops_at_name; eauto|].
    rewrite validate_unfold. rewrite (run_steps_stops_at _ _ _ _ _ _ _ Hstop).
    rewrite <- !app_assoc. reflexivity.
  - intros w' Hall. rewrite validate_unfold, (run_steps_all_succeed _ _ _ _ Hall).
    cbn [Shoal.run_steps]. mstep. rewrite <- app_assoc. cbn [app].
    destruct (Shoal.generate_build_info exec root_dir _) as [[bi|e] s2]; mstep;
      [rewrite <- app_assoc|]; reflexivity.
Qed.

(** C4 (as amended): an exception of class [Exception] raised by the
    action of the first non-succeeding step is caught: [validate] prints
    ["Step '<name>' failed with exception: <message>"] and returns False
    without invoking a later step.  A [BaseException]-only exception
    ([KeyboardInterrupt], [SystemExit]) is not caught and propagates.  The
    loop always ends in exactly one of: every step returned True, or a
    first step returned False or raised. *)
Theorem validate_step_exception (steps : list step) (w : world) (l : list event) :
  (forall k n e w', stops_at steps w k n (Raise e) w' -> exn_class e = ExcException ->
     validate steps (mk_state w l) =
       (Ret false, mk_state w' (app l (EvHeader validate_title ::
          app (invoked (firstn (S k) (step_names steps)))
              [EvError ("Step '" ++ n ++ "' failed with exception: " ++ exn_msg e)])))) /\
  (forall k n e w', stops_at steps w k n (Raise e) w' -> exn_class e = ExcBaseOnly ->
     validate steps (mk_state w l) =
       (Raise e, mk_state w' (app l (EvHeader validate_title :: invoked (firstn (S k) (step_names steps)))))) /\
  ((exists w', all_succeed steps w w') \/ (exists k n r w', stops_at steps w k n r w')) /\
  (forall w' k n r w'', all_succeed steps w w' -> stops_at steps w k n r w'' -> False).
Proof.
  split; [|split; [|split]].
  - intros k n e w' Hstop He. rewrite validate_unfold, (run_steps_stops_at _ _ _ _ _ _ _ Hstop), He.
    rewrite <- !app_assoc. reflexivity.
  - intros k n e w' Hstop He. rewrite validate_unfold, (run_steps_stops_at _ _ _ _ _ _ _ Hstop), He.
    rewrite <- !app_assoc. reflexivity.
  - apply steps_outcome_total.
  - intros w' k n r w'' Hall Hstop. eapply steps_outcome_exclusive; eauto.
Qed.

(** C7: a run in which some step returns False or raises ends in the world
    that step left (so [build-info.json] is not written by [validate]) and
    records no build-info record; any build-info record of a run comes
    after every step returned True. *)
Theorem validate_build_info_only_after_success (steps : list step) (w : world) (l : list event) :
  (forall k n r w', stops_at steps w k n r w' ->
     exists new, snd (validate steps (mk_state w l)) = mk_state w' (app l new) /\
                 forall bi, ~ In (EvBuildInfo bi) new) /\
  (forall bi, In (EvBuildInfo bi) (st_log (snd (validate steps (mk_state w l)))) ->
     In (EvBuildInfo bi) l \/ exists w', all_succeed steps w w').
Proof.
  assert (Hstop_case : forall k n r w', stops_at steps w k n r w' ->
     exists new, snd (validate steps (mk_state w l)) = mk_state w' (app l new) /\
                 forall bi, ~ In (EvBuildInfo bi) new).
  { intros k n r w' Hstop.
    rewrite validate_unfold, (run_steps_stops_at _ _ _ _ _ _ _ Hstop).
    assert (Hinv : forall bi names, ~ In (EvBuildInfo bi) (invoked names)).
    { intros bi names Hin. unfold invoked in Hin. apply in_map_iff in Hin as [? [? _]]. discriminate. }
    destruct r as [b|e]; [|destruct (exn_class e)]; cbn [snd].
    - eexists. split; [rewrite <- !app_assoc; reflexivity|].
      intros bi Hin. cbn [app] in Hin. destruct Hin as [Hin|Hin]; [discriminate|].
      apply in_app_or in Hin as [Hin|[Hin|[]]]; [eapply Hinv; eauto|discriminate].
    - eexists. split; [rewrite <- !app_assoc; reflexivity|].
      intros bi Hin. cbn [app] in Hin. destruct Hin as [Hin|Hin]; [discriminate|].
      apply in_app_or in Hin as [Hin|[Hin|[]]]; [eapply Hinv; eauto|discriminate].
    - eexists. split; [rewrite <- !app_assoc; reflexivity|].
      intros bi Hin. cbn [app] in Hin. destruct Hin as [Hin|Hin]; [discriminate|].
      eapply Hinv; eauto. }
  split; [exact Hstop_case|].
  intros bi Hin. destruct (steps_outcome_total steps w) as [Hall|[k [n [r [w' Hstop]]]]]; [right; exact Hall|].
  left. destruct (Hstop_case k n r w' Hstop) as [new [Heq Hno]].
  rewrite Heq in Hin. cbn [st_log] in Hin. apply in_app_or in Hin as [Hin|Hin]; [exact Hin|].
  exfalso. exact (Hno bi Hin).
Qed.

(** ** [clean] *)

Local Abbreviation clean := (clean root_dir).
Local Abbreviation clean_outcome := (clean_outcome root_dir).
Local Abbreviation clean_rest := (clean_rest root_dir).
Local Abbreviation clean_world := (clean_world root_dir).

Lemma fold_rglob_unlink (pats : list string) (fs : gmap (list string) kind) :
  fold_left (fun fs pat => rglob_unlink pat fs) pats fs =
  filter (fun pk => forallb (fun pat => rglob_unlink_keep pat pk) pats = true) fs.
Proof.
  revert fs. induction pats as [|pat pats IH]; intros fs; cbn [fold_left].
  - symmetry. apply map_filter_id. intros. reflexivity.
  - rewrite IH. unfold rglob_unlink. rewrite map_filter_filter. apply map_filter_ext.
    intros i x _. cbn [forallb]. rewrite andb_true_iff. tauto.
Qed.

Lemma keep_artifacts_idem (fs : gmap (list string) kind) :
  keep_artifacts (keep_artifacts fs) = keep_artifacts fs.
Proof.
  unfold keep_artifacts. rewrite map_filter_filter. apply map_filter_ext. intros i x _. tauto.
Qed.

Lemma keep_artifacts_None (fs : gmap (list string) kind) (p : list string) :
  fs !! p = None -> keep_artifacts fs !! p = None.
Proof. intros H. apply map_lookup_filter_None_2. left. exact H. Qed.

Lemma set_fs_set_fs (w : world) (a b : gmap (list string) kind) : set_fs (set_fs w a) b = set_fs w b.
Proof. reflexivity. Qed.

Lemma binary_name_set_fs (w : world) (a : gmap (list string) kind) : binary_name (set_fs w a) = binary_name w.
Proof. reflexivity. Qed.

Lemma set_fs_id (w : world) : set_fs w (w_fs w) = w.
Proof. destruct w. reflexivity. Qed.

Lemma binary_path_not_build (w : world) : [binary_name w] <> build_dir.
Proof. unfold binary_name, build_dir. destruct (String.eqb _ _); discriminate. Qed.

Lemma clean_no_build (w : world) (l : list event) :
  w_fs w !! build_dir = None -> clean_outcome (mk_state w l) = clean_rest w.
Proof.
  intros HB. unfold Shoal.clean_outcome, Shoal.clean_rest, Shoal.clean, remove_test_artifacts. mstep. rewrite HB. mstep.
  destruct (w_fs w !! [binary_name w]) as [[|]|] eqn:HX; mstep;
    rewrite ?fold_rglob_unlink; reflexivity.
Qed.

Lemma without_build_lookup (fs : gmap (list string) kind) : without_build fs !! build_dir = None.
Proof. apply map_lookup_filter_None_2. right. intros x _. cbn. discriminate. Qed.

Lemma clean_build_dir (w : world) (l : list event) :
  w_fs w !! build_dir = Some KDir ->
  clean_outcome (mk_state w l) = clean_rest (set_fs w (without_build (w_fs w))).
Proof.
  intros HB. unfold Shoal.clean_outcome, Shoal.clean_rest, Shoal.clean, remove_test_artifacts. mstep. rewrite HB. mstep.
  fold (without_build (w_fs w)). rewrite binary_name_set_fs. cbn [w_fs set_fs].
  destruct (without_build (w_fs w) !! [binary_name w]) as [[|]|] eqn:HX; mstep;
    rewrite ?fold_rglob_unlink; reflexivity.
Qed.

Lemma clean_build_file (w : world) (l : list event) :
  w_fs w !! build_dir = Some KFile ->
  clean_outcome (mk_state w l) = (Raise (os_error "NotADirectoryError" (path_str root_dir build_dir)), w).
Proof.
  intros HB. unfold Shoal.clean_outcome, Shoal.clean. mstep. rewrite HB. mstep. reflexivity.
Qed.

Lemma clean_outcome_world (s : state) : clean_outcome s = clean_world (st_w s).
Proof.
  destruct s as [w l]. unfold Shoal.clean_world. cbn [st_w].
  destruct (w_fs w !! build_dir) as [[|]|] eqn:HB.
  - apply clean_build_file; exact HB.
  - apply clean_build_dir; exact HB.
  - apply clean_no_build; exact HB.
Qed.

Lemma clean_rest_again (w : world) :
  w_fs w !! build_dir = None ->
  clean_world (snd (clean_rest w)) = clean_rest w.
Proof.
  intros HB. unfold Shoal.clean_rest at 1.
  destruct (w_fs w !! [binary_name w]) as [[|]|] eqn:HX; cbn [snd].
  - unfold Shoal.clean_world, Shoal.clean_rest. cbn [w_fs set_fs]. rewrite binary_name_set_fs.
    rewrite keep_artifacts_None by (rewrite lookup_delete_ne by apply binary_path_not_build; exact HB).
    rewrite keep_artifacts_None by apply lookup_delete_eq.
    rewrite HX, set_fs_set_fs. unfold keep_artifacts at 1. fold (keep_artifacts (keep_artifacts (delete [binary_name w] (w_fs w)))).
    rewrite keep_artifacts_idem. reflexivity.
  - unfold Shoal.clean_world, Shoal.clean_rest. rewrite HB, HX. reflexivity.
  - unfold Shoal.clean_world, Shoal.clean_rest. cbn [w_fs set_fs]. rewrite binary_name_set_fs.
    rewrite !keep_artifacts_None by assumption.
    rewrite HX, set_fs_set_fs, keep_artifacts_idem. reflexivity.
Qed.

Lemma clean_world_again (w : world) : clean_world (snd (clean_world w)) = clean_world w.
Proof.
  unfold Shoal.clean_world at 2 3. destruct (w_fs w !! build_dir) as [[|]|] eqn:HB.
  - cbn [snd]. unfold Shoal.clean_world. rewrite HB. reflexivity.
  - apply clean_rest_again. apply without_build_lookup.
  - apply clean_rest_again. exact HB.
Qed.

(** C9: running [clean] on the state a first [clean] left produces the
    same result and the same world (file system included); and [clean] of a
    state with nothing to remove returns True and changes nothing. *)
Theorem clean_idempotent (s : state) :
  clean_outcome (snd (clean s)) = clean_outcome s /\
  (w_fs (st_w s) !! build_dir = None ->
   w_fs (st_w s) !! [binary_name (st_w s)] = None ->
   (forall p k, w_fs (st_w s) !! p = Some k -> artifact_keep (p, k) = true) ->
   clean_outcome s = (Ret true, st_w s)).
Proof.
  split.
  - rewrite !clean_outcome_world. change (st_w (snd (clean s))) with (snd (clean_outcome s)).
    rewrite clean_outcome_world. apply clean_world_again.
  - intros HB HX Hkeep. rewrite clean_outcome_world. unfold Shoal.clean_world, Shoal.clean_rest.
    rewrite HB, HX. unfold keep_artifacts. rewrite map_filter_id by (intros p k Hp; apply Hkeep; exact Hp).
    rewrite set_fs_id. reflexivity.
Qed.

(** ** [generate_build_info] *)

Lemma run_command_returns (cmd : list string) (check : bool) (s : state) (o : spawn_outcome) (w' : world) :
  exec (st_w s) cmd root_dir (w_environ (st_w s)) = (o, w') -> cmd <> [] ->
  (forall e, o <> OSFailure e) ->
  exists rc out err l, run_command cmd check s = (Ret (rc, out, err), mk_state w' (app (st_log s) l)) /\
    (soft_fail o = true -> (rc =? 0)%Z = false).
Proof.
  intros Hx Hne Hno. unfold Shoal.run_command, subprocess_run. mstep. rewrite Hx. mstep.
  destruct o as [c| |e].
  - destruct (check && negb (returncode c =? 0)%Z); mstep.
    + destruct (negb (String.eqb (stdout c) "")), (negb (String.eqb (stderr c) "")); mstep;
        (do 4 eexists; split; [rewrite <- ?app_assoc; reflexivity|]);
        cbn; intros H; apply negb_true_iff in H; exact H.
    + do 4 eexists. split; [rewrite <- ?app_assoc; reflexivity|].
      cbn; intros H; apply negb_true_iff in H; exact H.
  - destruct cmd as [|c0 rest]; [congruence|]. mstep.
    do 4 eexists. split; [rewrite <- ?app_assoc; reflexivity|]. reflexivity.
  - exfalso. exact (Hno e eq_refl).
Qed.

Lemma run_command_raises (cmd : list string) (check : bool) (s : state) (e : exn) (w' : world) :
  exec (st_w s) cmd root_dir (w_environ (st_w s)) = (OSFailure e, w') ->
  run_command cmd check s = (Raise e, mk_state w' (app (st_log s) [EvSpawn cmd root_dir (w_environ (st_w s))])).
Proof. intros Hx. unfold Shoal.run_command, subprocess_run. mstep. rewrite Hx. reflexivity. Qed.

Lemma first_raise_skip (o : spawn_outcome) (os : list spawn_outcome) :
  (forall e, o <> OSFailure e) -> first_raise (o :: os) = first_raise os.
Proof. intros H. destruct o as [| |e]; [reflexivity|reflexivity|]. exfalso. exact (H e eq_refl). Qed.

Lemma outcome_raises_or_not (o : spawn_outcome) : (exists e, o = OSFailure e) \/ (forall e, o <> OSFailure e).
Proof. destruct o as [| |e]; [right; discriminate|right; discriminate|left; eexists; reflexivity]. Qed.

(** The four probes of [generate_build_info], each spawned in the world
    the previous one left: the first spawn that raises ends the call with
    its exception; when none raises and [build/build-info.json] can be
    written, a record is returned in which each field takes its
    placeholder exactly as its own probe failed without raising. *)
Lemma generate_build_info_probes (w w1 w2 w3 w4 : world) (o1 o2 o3 o4 : spawn_outcome) (l : list event) :
  exec w git_commit_cmd root_dir (w_environ w) = (o1, w1) ->
  exec w1 git_branch_cmd root_dir (w_environ w1) = (o2, w2) ->
  exec w2 git_status_cmd root_dir (w_environ w2) = (o3, w3) ->
  exec w3 go_version_cmd root_dir (w_environ w3) = (o4, w4) ->
  (forall e, first_raise [o1; o2; o3; o4] = Some e ->
     exists s', generate_build_info (mk_state w l) = (Raise e, s')) /\
  (first_raise [o1; o2; o3; o4] = None ->
     w_fs w4 !! build_dir = Some KDir -> w_fs w4 !! build_info_path <> Some KDir ->
     exists bi s', generate_build_info (mk_state w l) = (Ret bi, s') /\
       (soft_fail o1 = true -> bi_git_commit bi = "unknown") /\
       (soft_fail o2 = true -> bi_git_branch bi = "unknown") /\
       (soft_fail o3 = true -> bi_git_dirty bi = false) /\
       (soft_fail o4 = true -> bi_go_version bi = "unknown")).
Proof.
  intros E1 E2 E3 E4. unfold Shoal.generate_build_info. mstep.
  destruct (outcome_raises_or_not o1) as [[e1 ->]|N1].
  { rewrite (run_command_raises git_commit_cmd false (mk_state w l) e1 w1 E1). cbn.
    split; [intros e He; injection He as <-; eexists; reflexivity | discriminate]. }
  destruct (run_command_returns git_commit_cmd false (mk_state w l) o1 w1 E1 ltac:(discriminate) N1)
    as (rc1 & out1 & err1 & l1 & R1 & F1).
  rewrite R1, (first_raise_skip o1 _ N1). mstep.
  destruct (outcome_raises_or_not o2) as [[e2 ->]|N2].
  { match goal with |- context [Shoal.run_command _ _ git_branch_cmd false ?st] =>
      rewrite (run_command_raises git_branch_cmd false st e2 w2 E2) end. cbn.
    split; [intros e He; injection He as <-; eexists; reflexivity | discriminate]. }
  match goal with |- context [Shoal.run_command _ _ git_branch_cmd false ?st] =>
    destruct (run_command_returns git_branch_cmd false st o2 w2 E2 ltac:(discriminate) N2)
      as (rc2 & out2 & err2 & l2 & R2 & F2) end.
  rewrite R2, (first_raise_skip o2 _ N2). mstep.
  destruct (outcome_raises_or_not o3) as [[e3 ->]|N3].
  { match goal with |- context [Shoal.run_command _ _ git_status_cmd false ?st] =>
      rewrite (run_command_raises git_status_cmd false st e3 w3 E3) end. cbn.
    split; [intros e He; injection He as <-; eexists; reflexivity | discriminate]. }
  match goal with |- context [Shoal.run_command _ _ git_status_cmd false ?st] =>
    destruct (run_command_returns git_status_cmd false st o3 w3 E3 ltac:(discriminate) N3)
      as (rc3 & out3 & err3 & l3 & R3 & F3) end.
  rewrite R3, (first_raise_skip o3 _ N3). mstep.
  destruct (outcome_raises_or_not o4) as [[e4 ->]|N4].
  { match goal with |- context [Shoal.run_command _ _ go_version_cmd false ?st] =>
      rewrite (run_command_raises go_version_cmd false st e4 w4 E4) end. cbn.
    split; [intros e He; injection He as <-; eexists; reflexivity | discriminate]. }
  match goal with |- context [Shoal.run_command _ _ go_version_cmd false ?st] =>
    destruct (run_command_returns go_version_cmd false st o4 w4 E4 ltac:(discriminate) N4)
      as (rc4 & out4 & err4 & l4 & R4 & F4) end.
  rewrite R4, (first_raise_skip o4 _ N4). mstep.
  split; [intros e He; discriminate He|]. intros _ HB HI.
  unfold write_build_info. mstep. rewrite HB.
  destruct (w_fs w4 !! build_info_path) as [[|]|] eqn:HP; [|congruence|]; mstep;
    (eexists; eexists; split; [reflexivity|]);
    cbn [bi_git_commit bi_git_branch bi_git_dirty bi_go_version];
    (split; [intros S; rewrite (F1 S); reflexivity|]);
    (split; [intros S; rewrite (F2 S); reflexivity|]);
    (split; [intros S; rewrite (F3 S); reflexivity|]);
    intros S; rewrite (F4 S); reflexivity.
Qed.

(** C6 (as amended): once every step has returned True, the probes of
    [generate_build_info] run, each in the world the previous one left.
    When no probe spawn raises and [build/build-info.json] can be written,
    [validate] returns True and its build-info record degrades field by
    field: a [git rev-parse] that fails without raising (missing [git] or a
    nonzero exit) gives commit ["unknown"], a failing [git branch] gives
    branch ["unknown"], a failing [git status] gives a clean tree, a
    failing [go version] gives version ["unknown"], each independently of
    the others.  When a probe spawn raises (an [OSError] other than
    [FileNotFoundError]), the first such exception propagates out of
    [validate]. *)
Theorem validate_probe_failures_degrade (steps : list step) (w w' w1 w2 w3 w4 : world)
    (o1 o2 o3 o4 : spawn_outcome) (l : list event) :
  all_succeed steps w w' ->
  exec w' git_commit_cmd root_dir (w_environ w') = (o1, w1) ->
  exec w1 git_branch_cmd root_dir (w_environ w1) = (o2, w2) ->
  exec w2 git_status_cmd root_dir (w_environ w2) = (o3, w3) ->
  exec w3 go_version_cmd root_dir (w_environ w3) = (o4, w4) ->
  (first_raise [o1; o2; o3; o4] = None ->
     w_fs w4 !! build_dir = Some KDir -> w_fs w4 !! build_info_path <> Some KDir ->
     exists bi s', validate steps (mk_state w l) = (Ret true, s') /\
       In (EvBuildInfo bi) (st_log s') /\
       (soft_fail o1 = true -> bi_git_commit bi = "unknown") /\
       (soft_fail o2 = true -> bi_git_branch bi = "unknown") /\
       (soft_fail o3 = true -> bi_git_dirty bi = false) /\
       (soft_fail o4 = true -> bi_go_version bi = "unknown")) /\
  (forall e, first_raise [o1; o2; o3; o4] = Some e ->
     fst (validate steps (mk_state w l)) = Raise e).
Proof.
  intros Hall E1 E2 E3 E4.
  rewrite validate_unfold, (run_steps_all_succeed _ _ _ _ Hall).
  cbn [Shoal.run_steps]. mstep.
  destruct (generate_build_info_probes w' w1 w2 w3 w4 o1 o2 o3 o4
              (app (app l [EvHeader validate_title]) (invoked (step_names steps))) E1 E2 E3 E4)
    as [Hr Hok].
  split.
  - intros Hn HB HI. destruct (Hok Hn HB HI) as (bi & [w5 l5] & Hg & F1 & F2 & F3 & F4).
    rewrite Hg. mstep. eexists; eexists; split; [reflexivity|].
    split; [cbn [st_log]; apply in_or_app; left; apply in_or_app; right; left; reflexivity|].
    auto.
  - intros e He. destruct (Hr e He) as [s' Hg]. rewrite Hg. reflexivity.
Qed.

(** ** [build_all_platforms] *)

Local Abbreviation build_for_platform := (build_for_platform exec root_dir).
Local Abbreviation per_target_results := (per_target_results exec root_dir).

Lemma step_lines_app (l1 l2 : list event) : step_lines (app l1 l2) = app (step_lines l1) (step_lines l2).
Proof. induction l1 as [|[] l1 IH]; cbn; rewrite ?IH; reflexivity. Qed.

Lemma build_for_platform_log (goos goarch : string) (s : state) :
  exists l, st_log (snd (build_for_platform goos goarch s)) = app (st_log s) l /\
            step_lines l = [building_line (goos, goarch)].
Proof.
  unfold Shoal.build_for_platform, mkdir_build, Shoal.run_command, subprocess_run. mstep.
  repeat (case_match; mstep; simplify_eq; cbn [st_w st_log] in * );
    (eexists; split; [rewrite <- ?app_assoc; reflexivity|reflexivity]).
Qed.

Lemma build_all_loop_results (acc : bool) (ps : list (string * string)) (s : state) :
  build_all_loop exec root_dir acc ps s =
    match per_target_results ps s with
    | (Ret oks, s') => (Ret (acc && forallb id oks), s')
    | (Raise e, s') => (Raise e, s')
    end.
Proof.
  revert acc s. induction ps as [|[goos goarch] ps IH]; intros acc s.
  - cbn. rewrite andb_true_r. reflexivity.
  - cbn [build_all_loop Shoal.per_target_results]. mstep.
    destruct (build_for_platform goos goarch s) as [[ok|e] s1]; [|reflexivity].
    rewrite IH. destruct (per_target_results ps s1) as [[oks|e] s2]; mstep; [|reflexivity].
    cbn [forallb id]. rewrite andb_assoc. reflexivity.
Qed.

Lemma per_target_results_shape (ps : list (string * string)) (s : state) (oks : list bool) (s' : state) :
  per_target_results ps s = (Ret oks, s') ->
  length oks = length ps /\
  exists l, st_log s' = app (st_log s) l /\ step_lines l = map building_line ps.
Proof.
  revert s oks. induction ps as [|[goos goarch] ps IH]; intros s oks Hrun.
  - cbn in Hrun. injection Hrun as <- <-. split; [reflexivity|]. exists []. rewrite app_nil_r. split; reflexivity.
  - cbn [Shoal.per_target_results] in Hrun. mstep.
    destruct (build_for_platform_log goos goarch s) as [l1 [L1 S1]].
    destruct (build_for_platform goos goarch s) as [[ok|e] s1] eqn:H1; [|discriminate].
    destruct (per_target_results ps s1) as [[oks'|e] s2] eqn:H2; mstep; [|discriminate].
    injection Hrun as <- <-. destruct (IH s1 oks' H2) as [Hlen [l2 [L2 S2]]].
    split; [cbn; rewrite Hlen; reflexivity|].
    exists (app l1 l2). cbn [snd] in L1. rewrite L2, L1, <- app_assoc. split; [reflexivity|].
    rewrite step_lines_app, S1, S2. reflexivity.
Qed.

(** C3 (as amended): [build_all_platforms] runs [build_for_platform] on
    every declared target in declaration order, whatever the earlier
    targets returned, and returns True iff every call returned True; each
    target's build is announced exactly once, in order.  An exception
    raised by a build propagates and ends the loop.  It returns this bool
    only: no per-target results are returned. *)
Theorem build_all_platforms_attempts_each (s : state) :
  build_all_platforms exec root_dir s =
    match per_target_results SUPPORTED_PLATFORMS (mk_state (st_w s) (app (st_log s) [EvHeader matrix_title])) with
    | (Ret oks, s') => (Ret (forallb id oks), s')
    | (Raise e, s') => (Raise e, s')
    end /\
  (forall b s', build_all_platforms exec root_dir s = (Ret b, s') ->
     (exists oks, per_target_results SUPPORTED_PLATFORMS (mk_state (st_w s) (app (st_log s) [EvHeader matrix_title]))
                    = (Ret oks, s') /\ length oks = length SUPPORTED_PLATFORMS /\ b = forallb id oks) /\
     (exists l, st_log s' = app (st_log s) (EvHeader matrix_title :: l) /\
                step_lines l = map building_line SUPPORTED_PLATFORMS)).
Proof.
  assert (Heq : build_all_platforms exec root_dir s =
    match per_target_results SUPPORTED_PLATFORMS (mk_state (st_w s) (app (st_log s) [EvHeader matrix_title])) with
    | (Ret oks, s') => (Ret (forallb id oks), s')
    | (Raise e, s') => (Raise e, s')
    end).
  { unfold build_all_platforms. mstep. rewrite build_all_loop_results. reflexivity. }
  split; [exact Heq|].
  intros b s' Hrun. rewrite Heq in Hrun.
  destruct (per_target_results SUPPORTED_PLATFORMS _) as [[oks|e] s2] eqn:Hp; [|discriminate].
  injection Hrun as <- <-.
  destruct (per_target_results_shape _ _ _ _ Hp) as [Hlen [l [L S]]].
  split; [exists oks; auto|].
  exists l. cbn [st_log] in L. rewrite L, <- app_assoc. split; [reflexivity|exact S].
Qed.

End Properties.

(** * Properties of the other commands *)

Section CommandProperties.

Variable exec : world -> list string -> string -> gmap string string -> spawn_outcome * world.
Variable root_dir : string.

Local Abbreviation run_command := (run_command exec root_dir).
Local Abbreviation check_prerequisites := (check_prerequisites exec root_dir).
Local Abbreviation download_dependencies := (download_dependencies exec root_dir).
Local Abbreviation lint_code := (lint_code exec root_dir).
Local Abbreviation run_tests := (run_tests exec root_dir).
Local Abbreviation build_binary := (build_binary exec root_dir).
Local Abbreviation run_security_checks := (run_security_checks exec root_dir).
Local Abbreviation generate_build_info := (generate_build_info exec root_dir).
Local Abbreviation run_cli_command := (run_cli_command exec root_dir).
Local Abbreviation main := (main exec root_dir).

Ltac mstep :=
  try unfold print_error, print, print_success, print_step, print_header, print_warning,
    mbind, M_bind, mret, M_ret, bind, ret, raise, emit, get_world, put_world in *;
  cbn [st_w st_log fst snd negb andb orb] in *.

Lemma spawns_app (l1 l2 : list event) : spawns (app l1 l2) = app (spawns l1) (spawns l2).
Proof. induction l1 as [|[] l1 IH]; cbn; rewrite ?IH; reflexivity. Qed.

(** A call of [run_command] whose spawn does not raise returns normally,
    with return code 0 exactly when the outcome is a zero exit, and starts
    one child process. *)
Lemma run_command_ok (cmd : list string) (check : bool) (w : world) (l : list event)
    (o : spawn_outcome) (w' : world) :
  exec w cmd root_dir (w_environ w) = (o, w') -> cmd <> [] -> (forall e, o <> OSFailure e) ->
  exists rc out err l', run_command cmd check (mk_state w l) = (Ret (rc, out, err), mk_state w' (app l l')) /\
    (rc =? 0)%Z = outcome_ok o /\ spawns l' = [(cmd, w_environ w)].
Proof.
  intros Hx Hne Hno. unfold Shoal.run_command, subprocess_run. mstep. rewrite Hx. mstep.
  destruct o as [c| |e].
  - destruct (check && negb (returncode c =? 0)%Z); mstep.
    + destruct (negb (String.eqb (stdout c) "")), (negb (String.eqb (stderr c) "")); mstep;
        (do 4 eexists; split; [rewrite <- ?app_assoc; reflexivity|]); split; reflexivity.
    + do 4 eexists. split; [rewrite <- ?app_assoc; reflexivity|]. split; reflexivity.
  - destruct cmd as [|c0 rest]; [congruence|]. mstep.
    do 4 eexists. split; [rewrite <- ?app_assoc; reflexivity|]. split; reflexivity.
  - exfalso. exact (Hno e eq_refl).
Qed.

Ltac run_cmd H Hno :=
  match goal with
  | |- context [Shoal.run_command _ _ ?cmd ?chk (mk_state ?w ?l)] =>
      let rc := fresh "rc" in let out := fresh "out" in let err := fresh "err" in
      let l' := fresh "l" in let Hr := fresh "Hr" in let Hrc := fresh "Hrc" in
      let Hsp := fresh "Hsp" in
      destruct (run_command_ok cmd chk w l _ _ H ltac:(discriminate) Hno)
        as (rc & out & err & l' & Hr & Hrc & Hsp);
      rewrite Hr; mstep; try rewrite Hrc
  end.

Ltac close_log :=
  eexists; split;
  [ rewrite <- ?app_assoc; reflexivity
  | rewrite ?spawns_app; cbn [spawns];
    repeat match goal with H : spawns ?x = _ |- context [spawns ?x] => rewrite H end;
    reflexivity ].

(** [check_prerequisites] runs [go version] only; unless spawning raises,
    it returns True exactly when [go version] exits 0 and [go.mod] exists
    at the root (a missing [go] gives False). *)
Theorem check_prerequisites_outcome (s : state) (o : spawn_outcome) (w1 : world) :
  exec (st_w s) go_version_cmd root_dir (w_environ (st_w s)) = (o, w1) ->
  (forall e, o <> OSFailure e) ->
  exists l, check_prerequisites s = (Ret (outcome_ok o && exists_path w1 go_mod_path), mk_state w1 (app (st_log s) l)) /\
            map fst (spawns l) = [go_version_cmd].
Proof.
  destruct s as [w l]; cbn [st_w st_log]. intros Hx Hno.
  unfold Shoal.check_prerequisites. mstep. run_cmd Hx Hno.
  destruct (outcome_ok o); cbn [negb andb]; mstep.
  - destruct (exists_path w1 go_mod_path); cbn [negb]; mstep; close_log.
  - close_log.
Qed.

(** When [go mod download] does not exit 0 (or [go] is missing),
    [download_dependencies] returns False without running [go mod verify]. *)
Theorem download_dependencies_download_fails (s : state) (o : spawn_outcome) (w1 : world) :
  exec (st_w s) go_mod_download_cmd root_dir (w_environ (st_w s)) = (o, w1) ->
  (forall e, o <> OSFailure e) -> outcome_ok o = false ->
  exists l, download_dependencies s = (Ret false, mk_state w1 (app (st_log s) l)) /\
            map fst (spawns l) = [go_mod_download_cmd].
Proof.
  destruct s as [w l]; cbn [st_w st_log]. intros Hx Hno Hok.
  unfold Shoal.download_dependencies. mstep. run_cmd Hx Hno. rewrite Hok. mstep. close_log.
Qed.

(** When [go mod download] exits 0, [download_dependencies] runs
    [go mod verify] and returns True exactly when it exits 0. *)
Theorem download_dependencies_verify (s : state) (o1 o2 : spawn_outcome) (w1 w2 : world) :
  exec (st_w s) go_mod_download_cmd root_dir (w_environ (st_w s)) = (o1, w1) ->
  (forall e, o1 <> OSFailure e) -> outcome_ok o1 = true ->
  exec w1 go_mod_verify_cmd root_dir (w_environ w1) = (o2, w2) ->
  (forall e, o2 <> OSFailure e) ->
  exists l, download_dependencies s = (Ret (outcome_ok o2), mk_state w2 (app (st_log s) l)) /\
            map fst (spawns l) = [go_mod_download_cmd; go_mod_verify_cmd].
Proof.
  destruct s as [w l]; cbn [st_w st_log]. intros Hx1 Hno1 Hok1 Hx2 Hno2.
  unfold Shoal.download_dependencies. mstep. run_cmd Hx1 Hno1. rewrite Hok1. mstep.
  run_cmd Hx2 Hno2. destruct (outcome_ok o2); cbn [negb]; mstep; close_log.
Qed.

(** When [golangci-lint --version] exits 0, [lint_code] runs
    [golangci-lint run] and never [go vet]; its result is whether the
    linter exited 0. *)
Theorem lint_code_golangci (s : state) (o1 o2 : spawn_outcome) (w1 w2 : world) :
  exec (st_w s) golangci_version_cmd root_dir (w_environ (st_w s)) = (o1, w1) ->
  (forall e, o1 <> OSFailure e) -> outcome_ok o1 = true ->
  exec w1 golangci_run_cmd root_dir (w_environ w1) = (o2, w2) ->
  (forall e, o2 <> OSFailure e) ->
  exists l, lint_code s = (Ret (outcome_ok o2), mk_state w2 (app (st_log s) l)) /\
            map fst (spawns l) = [golangci_version_cmd; golangci_run_cmd].
Proof.
  destruct s as [w l]; cbn [st_w st_log]. intros Hx1 Hno1 Hok1 Hx2 Hno2.
  unfold Shoal.lint_code. mstep. run_cmd Hx1 Hno1. rewrite Hok1. mstep.
  run_cmd Hx2 Hno2. destruct (outcome_ok o2); cbn [negb]; mstep; close_log.
Qed.

(** When [golangci-lint --version] does not exit 0 (e.g. it is not
    installed), [lint_code] falls back to [go vet ./...] and never runs
    [golangci-lint run]; its result is whether [go vet] exited 0. *)
Theorem lint_code_go_vet_fallback (s : state) (o1 o2 : spawn_outcome) (w1 w2 : world) :
  exec (st_w s) golangci_version_cmd root_dir (w_environ (st_w s)) = (o1, w1) ->
  (forall e, o1 <> OSFailure e) -> outcome_ok o1 = false ->
  exec w1 go_vet_cmd root_dir (w_environ w1) = (o2, w2) ->
  (forall e, o2 <> OSFailure e) ->
  exists l, lint_code s = (Ret (outcome_ok o2), mk_state w2 (app (st_log s) l)) /\
            map fst (spawns l) = [golangci_version_cmd; go_vet_cmd].
Proof.
  destruct s as [w l]; cbn [st_w st_log]. intros Hx1 Hno1 Hok1 Hx2 Hno2.
  unfold Shoal.lint_code. mstep. run_cmd Hx1 Hno1. rewrite Hok1. mstep.
  run_cmd Hx2 Hno2. destruct (outcome_ok o2); cbn [negb]; mstep; close_log.
Qed.

(** When [gosec -version] does not exit 0 (e.g. [gosec] is missing),
    [run_security_checks] warns, skips the scan and returns True. *)
Theorem run_security_checks_skipped (s : state) (o : spawn_outcome) (w1 : world) :
  exec (st_w s) gosec_version_cmd root_dir (w_environ (st_w s)) = (o, w1) ->
  (forall e, o <> OSFailure e) -> outcome_ok o = false ->
  exists l, run_security_checks s = (Ret true, mk_state w1 (app (st_log s) l)) /\
            map fst (spawns l) = [gosec_version_cmd] /\
            In (EvWarning "gosec not available - skipping security scan") l.
Proof.
  destruct s as [w l]; cbn [st_w st_log]. intros Hx Hno Hok.
  unfold Shoal.run_security_checks. mstep. run_cmd Hx Hno. rewrite Hok. mstep.
  eexists; split; [rewrite <- ?app_assoc; reflexivity|]. split.
  - rewrite ?spawns_app; cbn [spawns]. rewrite Hsp. reflexivity.
  - apply in_or_app. right. apply in_or_app. right. left. reflexivity.
Qed.

(** When [gosec -version] exits 0, [run_security_checks] runs the scan and
    returns True exactly when the scan exits 0. *)
Theorem run_security_checks_scan (s : state) (o1 o2 : spawn_outcome) (w1 w2 : world) :
  exec (st_w s) gosec_version_cmd root_dir (w_environ (st_w s)) = (o1, w1) ->
  (forall e, o1 <> OSFailure e) -> outcome_ok o1 = true ->
  exec w1 gosec_run_cmd root_dir (w_environ w1) = (o2, w2) ->
  (forall e, o2 <> OSFailure e) ->
  exists l, run_security_checks s = (Ret (outcome_ok o2), mk_state w2 (app (st_log s) l)) /\
            map fst (spawns l) = [gosec_version_cmd; gosec_run_cmd].
Proof.
  destruct s as [w l]; cbn [st_w st_log]. intros Hx1 Hno1 Hok1 Hx2 Hno2.
  unfold Shoal.run_security_checks. mstep. run_cmd Hx1 Hno1. rewrite Hok1. mstep.
  run_cmd Hx2 Hno2. destruct (outcome_ok o2); cbn [negb]; mstep; close_log.
Qed.

(** Without coverage, [run_tests] runs the single process
    [go test -v ./...] and returns True exactly when it exits 0. *)
Theorem run_tests_no_coverage (s : state) (o : spawn_outcome) (w1 : world) :
  exec (st_w s) (go_test_cmd false) root_dir (w_environ (st_w s)) = (o, w1) ->
  (forall e, o <> OSFailure e) ->
  exists l, run_tests false s = (Ret (outcome_ok o), mk_state w1 (app (st_log s) l)) /\
            map fst (spawns l) = [["go"; "test"; "-v"; "./..."]].
Proof.
  destruct s as [w l]; cbn [st_w st_log]. intros Hx Hno.
  unfold Shoal.run_tests. mstep. run_cmd Hx Hno.
  destruct (outcome_ok o); cbn [negb andb]; mstep; close_log.
Qed.

(** ** [run_tests] with coverage *)






(** ** [build_binary] *)

(** Once the compiler exits 0 and [build/<binary_name>] exists,
    [build_binary] returns True whatever the exit code of the
    [<binary> -h] execution test, which only prints a warning. *)
Theorem build_binary_exec_test_not_fatal (s : state) (o1 o2 : spawn_outcome) (w1 w2 : world) :
  let w0 := match w_fs (st_w s) !! build_dir with
            | Some KDir => st_w s
            | _ => set_fs (st_w s) (<[build_dir := KDir]> (w_fs (st_w s)))
            end in
  let bp := path_str root_dir (app build_dir [binary_name (st_w s)]) in
  w_fs (st_w s) !! build_dir <> Some KFile ->
  exec w0 (go_build_cmd bp) root_dir (w_environ w0) = (o1, w1) ->
  (forall e, o1 <> OSFailure e) -> outcome_ok o1 = true ->
  exists_path w1 (app build_dir [binary_name (st_w s)]) = true ->
  exec w1 [bp; "-h"] root_dir (w_environ w1) = (o2, w2) ->
  (forall e, o2 <> OSFailure e) ->
  exists l, build_binary s = (Ret true, mk_state w2 (app (st_log s) l)) /\
            map fst (spawns l) = [go_build_cmd bp; [bp; "-h"]].
Proof.
  intros w0 bp. subst w0 bp. destruct s as [w l]; cbn [st_w st_log].
  intros Hb Hx1 Hno1 Hok1 He Hx2 Hno2.
  unfold Shoal.build_binary, mkdir_build. mstep.
  destruct (w_fs w !! build_dir) as [[|]|] eqn:HB; [contradiction Hb; reflexivity | |]; mstep;
    rewrite ?binary_name_set_fs; run_cmd Hx1 Hno1; rewrite Hok1; mstep; rewrite ?binary_name_set_fs, He; mstep;
    run_cmd Hx2 Hno2; destruct (outcome_ok o2); mstep; close_log.
Qed.

(** When the compiler does not exit 0 or leaves no [build/<binary_name>],
    [build_binary] returns False and does not run the execution test. *)
Theorem build_binary_failure (s : state) (o1 : spawn_outcome) (w1 : world) :
  let w0 := match w_fs (st_w s) !! build_dir with
            | Some KDir => st_w s
            | _ => set_fs (st_w s) (<[build_dir := KDir]> (w_fs (st_w s)))
            end in
  let bp := path_str root_dir (app build_dir [binary_name (st_w s)]) in
  w_fs (st_w s) !! build_dir <> Some KFile ->
  exec w0 (go_build_cmd bp) root_dir (w_environ w0) = (o1, w1) ->
  (forall e, o1 <> OSFailure e) ->
  outcome_ok o1 && exists_path w1 (app build_dir [binary_name (st_w s)]) = false ->
  exists l, build_binary s = (Ret false, mk_state w1 (app (st_log s) l)) /\
            map fst (spawns l) = [go_build_cmd bp].
Proof.
  intros w0 bp. subst w0 bp. destruct s as [w l]; cbn [st_w st_log].
  intros Hb Hx1 Hno1 Hf.
  unfold Shoal.build_binary, mkdir_build. mstep.
  destruct (w_fs w !! build_dir) as [[|]|] eqn:HB; [contradiction Hb; reflexivity | |]; mstep;
    rewrite ?binary_name_set_fs; run_cmd Hx1 Hno1;
    (destruct (outcome_ok o1); mstep; [rewrite ?binary_name_set_fs, Hf; mstep|]); close_log.
Qed.

(** ** [generate_build_info] *)

Lemma substring_length_le (n : nat) (s : string) : String.length (substring 0 n s) <= n.
Proof.
  revert n. induction s as [|c s IH]; intros [|n]; cbn; try lia.
  specialize (IH n). lia.
Qed.

(** The commit hash of a build-info record has at most 8 characters: the
    probe's output is cut to 8, and the placeholder is ["unknown"]. *)
Theorem generate_build_info_commit_short (s s' : state) (bi : build_info) :
  generate_build_info s = (Ret bi, s') -> String.length (bi_git_commit bi) <= 8.
Proof.
  intros Hg. unfold Shoal.generate_build_info, write_build_info in Hg. mstep.
  repeat (case_match; simplify_eq; mstep); cbn [bi_git_commit];
    solve [apply substring_length_le | cbn; lia].
Qed.

(** A build-info record is returned only after [build/build-info.json] has
    been written: in the world [generate_build_info] leaves, [build] is a
    directory and [build/build-info.json] a file. *)
Theorem generate_build_info_writes_file (s s' : state) (bi : build_info) :
  generate_build_info s = (Ret bi, s') ->
  w_fs (st_w s') !! build_dir = Some KDir /\ w_fs (st_w s') !! build_info_path = Some KFile.
Proof.
  intros Hg. unfold Shoal.generate_build_info, write_build_info in Hg. mstep.
  repeat (case_match; simplify_eq; mstep); cbn [w_fs set_fs st_w];
    (split; [rewrite lookup_insert_ne by discriminate; assumption | apply lookup_insert_eq]).
Qed.

(** ** [main] *)

Lemma split_char_length (c : ascii) (s : string) : length (split_char c s) = S (count_char c s).
Proof.
  unfold split_char. induction s as [|d s IH]; cbn [split_pred count_char]; [reflexivity|].
  destruct (Ascii.eqb d c); cbn [length].
  - rewrite IH. reflexivity.
  - destruct (split_pred _ s) eqn:E; cbn [length] in *; [discriminate | lia].
Qed.

Lemma split_char_none (c : ascii) (y : string) : count_char c y = 0 -> split_char c y = [y].
Proof.
  unfold split_char. induction y as [|d y IH]; cbn [split_pred count_char]; [reflexivity|].
  destruct (Ascii.eqb d c); cbn; [discriminate|]. intros H. rewrite IH by exact H. reflexivity.
Qed.

Lemma split_char_one (c : ascii) (x y : string) :
  count_char c x = 0 -> count_char c y = 0 -> split_char c (x ++ String c y) = [x; y].
Proof.
  intros Hx Hy. induction x as [|d x IH].
  - change ("" ++ String c y) with (String c y). unfold split_char. cbn [split_pred].
    rewrite Ascii.eqb_refl. fold (split_char c y). rewrite split_char_none by exact Hy. reflexivity.
  - change (String d x ++ String c y) with (String d (x ++ String c y)).
    cbn [count_char] in Hx. unfold split_char in *. cbn [split_pred].
    destruct (Ascii.eqb d c); cbn in Hx; [discriminate|]. rewrite IH by exact Hx. reflexivity.
Qed.

(** [--platform goos/goarch] with no ['/'] inside [goos] or [goarch]
    (either may be empty) selects the chain prerequisites, dependencies,
    then [build_for_platform goos goarch]. *)
Theorem run_cli_build_platform (goos goarch : string) :
  count_char "/"%char goos = 0 -> count_char "/"%char goarch = 0 ->
  run_cli_command CmdBuild (Some (goos ++ "/" ++ goarch)) =
    and_then check_prerequisites (and_then download_dependencies (build_for_platform exec root_dir goos goarch)).
Proof.
  intros Hx Hy. unfold Shoal.run_cli_command.
  assert (E : String.eqb (goos ++ "/" ++ goarch) "" = false) by (destruct goos; reflexivity).
  rewrite E. change ("/" ++ goarch) with (String "/" goarch).
  rewrite split_char_one by assumption. reflexivity.
Qed.

(** A non-empty [--platform] value with no ['/'] or more than one makes
    [build] print the usage error and exit with code 1 before anything
    runs: no process is started and no summary is printed. *)
Theorem main_bad_platform (p elapsed : string) (s : state) :
  p <> "" -> count_char "/"%char p <> 1 ->
  main CmdBuild (Some p) elapsed s =
    (Raise (system_exit "1"), mk_state (st_w s) (app (st_log s) [EvError platform_error])).
Proof.
  intros Hp Hc. destruct s as [w l]. unfold Shoal.main, Shoal.run_cli_command, try_m.
  assert (E : String.eqb p "" = false) by (apply String.eqb_neq; exact Hp). rewrite E.
  pose proof (split_char_length "/"%char p) as Hl.
  destruct (split_char "/"%char p) as [|x [|y [|z r]]] eqn:Es; cbn [length] in Hl; try lia;
    mstep; reflexivity.
Qed.

(** When the command returns normally, [main] prints the summary and exits
    with 0 for True and 1 for False; the [Binary:] line appears only on
    success with [build/<binary_name>] present. *)
Theorem main_exit_code (c : command) (p : option string) (elapsed : string) (s s1 : state) (b : bool) :
  run_cli_command c p s = (Ret b, s1) ->
  main c p elapsed s =
    (Raise (system_exit (if b then "0" else "1")),
     mk_state (st_w s1) (app (st_log s1)
       (EvHeader "Build Summary" :: EvOut ("Status: " ++ (if b then "SUCCESS" else "FAILED")) ::
        EvOut ("Time: " ++ elapsed ++ "s") ::
        (if b && exists_path (st_w s1) build_dir && exists_path (st_w s1) (app build_dir [binary_name (st_w s1)])
         then [EvOut ("Binary: " ++ path_str root_dir (app build_dir [binary_name (st_w s1)]))]
         else [])))).
Proof.
  intros H. unfold Shoal.main, try_m, Shoal.print_summary. mstep. rewrite H. mstep.
  destruct s1 as [w1 l1]. cbn [st_w st_log].
  destruct b, (exists_path w1 build_dir), (exists_path w1 (app build_dir [binary_name w1])); mstep;
    rewrite <- ?app_assoc; reflexivity.
Qed.

(** An exception escaping the command: [KeyboardInterrupt] and any
    [Exception] are reported and give exit code 1 after a [FAILED]
    summary; another [BaseException] (such as [SystemExit]) propagates
    unchanged, with no summary. *)
Theorem main_exception (c : command) (p : option string) (elapsed : string) (s s1 : state) (e : exn) :
  run_cli_command c p s = (Raise e, s1) ->
  (exn_type e = "KeyboardInterrupt" ->
     main c p elapsed s =
       (Raise (system_exit "1"), mk_state (st_w s1) (app (st_log s1)
          [EvError "Build interrupted by user"; EvHeader "Build Summary"; EvOut "Status: FAILED";
           EvOut ("Time: " ++ elapsed ++ "s")]))) /\
  (exn_type e <> "KeyboardInterrupt" -> exn_class e = ExcException ->
     main c p elapsed s =
       (Raise (system_exit "1"), mk_state (st_w s1) (app (st_log s1)
          [EvError ("Build failed with exception: " ++ exn_msg e); EvHeader "Build Summary";
           EvOut "Status: FAILED"; EvOut ("Time: " ++ elapsed ++ "s")]))) /\
  (exn_type e <> "KeyboardInterrupt" -> exn_class e = ExcBaseOnly ->
     main c p elapsed s = (Raise e, s1)).
Proof.
  intros H. unfold Shoal.main, try_m, Shoal.print_summary. mstep. rewrite H. mstep.
  destruct s1 as [w1 l1]. cbn [st_w st_log].
  split; [|split].
  - intros Hk. rewrite Hk, String.eqb_refl. mstep. rewrite <- ?app_assoc. reflexivity.
  - intros Hk Hc. apply String.eqb_neq in Hk. rewrite Hk, Hc. mstep. rewrite <- ?app_assoc. reflexivity.
  - intros Hk Hc. apply String.eqb_neq in Hk. rewrite Hk, Hc. mstep. reflexivity.
Qed.

Lemma check_prerequisites_go_fails (w : world) (l : list event) (o : spawn_outcome) (w1 : world) :
  exec w go_version_cmd root_dir (w_environ w) = (o, w1) -> (forall e, o <> OSFailure e) ->
  outcome_ok o = false ->
  exists l', check_prerequisites (mk_state w l) = (Ret false, mk_state w1 (app l l')) /\
             spawns l' = [(go_version_cmd, w_environ w)].
Proof.
  intros Hx Hno Hok. unfold Shoal.check_prerequisites. mstep. run_cmd Hx Hno. rewrite Hok. mstep.
  eexists; split; [rewrite <- ?app_assoc; reflexivity|].
  rewrite ?spawns_app; cbn [spawns]. rewrite Hsp. reflexivity.
Qed.

(** Without a working [go] ([go version] missing or failing), every
    command that checks prerequisites ([deps], [fmt], [lint], [test],
    [coverage], [build] without [--platform], [build-all]) starts no
    process besides [go version] and exits with code 1 after a [FAILED]
    summary. *)
Theorem main_without_go (c : command) (p : option string) (elapsed : string) (s : state)
    (o : spawn_outcome) (w1 : world) :
  c <> CmdClean -> c <> CmdValidate -> (c <> CmdBuild \/ p = None) ->
  exec (st_w s) go_version_cmd root_dir (w_environ (st_w s)) = (o, w1) ->
  (forall e, o <> OSFailure e) -> outcome_ok o = false ->
  exists l, main c p elapsed s = (Raise (system_exit "1"), mk_state w1 (app (st_log s) l)) /\
            map fst (spawns l) = [go_version_cmd] /\ In (EvOut "Status: FAILED") l.
Proof.
  destruct s as [w l]; cbn [st_w st_log]. intros Hc1 Hc2 Hp Hx Hno Hok.
  destruct (check_prerequisites_go_fails w l o w1 Hx Hno Hok) as (l' & Hcp & Hsp).
  assert (Hr : run_cli_command c p (mk_state w l) = (Ret false, mk_state w1 (app l l'))).
  { destruct c; try congruence;
      try lazymatch goal with
          | |- context [Shoal.run_cli_command _ _ CmdBuild] => destruct Hp as [Hp| ->]; [congruence|]
          end;
      unfold Shoal.run_cli_command, and_then, bind; rewrite Hcp; reflexivity. }
  unfold Shoal.main, try_m, Shoal.print_summary. mstep. rewrite Hr. mstep.
  eexists; split; [rewrite <- ?app_assoc; reflexivity|]. split.
  - rewrite ?spawns_app; cbn [spawns]. rewrite Hsp. reflexivity.
  - apply in_or_app. right. cbn. right. left. reflexivity.
Qed.

End CommandProperties.

(** C2: [build_for_platform] computes [env] with [GOOS] and [GOARCH] but
    [run_command] is called without it, so the compiler inherits
    [os.environ] unchanged.  Building [windows/amd64] from an environment
    that only sets [PATH]: the compiler process has neither [GOOS] nor
    [GOARCH]. *)
Theorem build_for_platform_windows_env_not_passed :
  let s' := snd (build_for_platform (ex_exec "") ex_root "windows" "amd64" ex_state) in
  st_log s' =
    [EvStep "Building for windows/amd64";
     EvSpawn (go_build_cmd (target_path "windows" "amd64")) ex_root (<["PATH" := "/usr/bin"]> ∅);
     EvSuccess ("Built: " ++ target_path "windows" "amd64")] /\
  (<["PATH" := "/usr/bin"]> ∅ : gmap string string) !! "GOOS" = None /\
  (<["PATH" := "/usr/bin"]> ∅ : gmap string string) !! "GOARCH" = None.
Proof. split; [vm_compute; reflexivity | split; reflexivity]. Qed.

(** * Instances of the hypotheses *)

Lemma run_command_not_found_witness :
  ex_exec "" (st_w ex_state) ["git"; "rev-parse"; "HEAD"] ex_root (w_environ (st_w ex_state)) = (NotFound, ex_world ∅) /\
  run_command (ex_exec "") ex_root ("git" :: ["rev-parse"; "HEAD"]) true ex_state =
    (Ret (1%Z, "", "Command not found: " ++ "git"),
     mk_state (ex_world ∅) (app (st_log ex_state)
       [EvSpawn ("git" :: ["rev-parse"; "HEAD"]) ex_root (w_environ (st_w ex_state));
        EvError ("Command not found: " ++ "git")])).
Proof.
  assert (H : ex_exec "" (st_w ex_state) ["git"; "rev-parse"; "HEAD"] ex_root (w_environ (st_w ex_state))
              = (NotFound, ex_world ∅)) by reflexivity.
  split; [exact H | exact (run_command_not_found (ex_exec "") ex_root "git" ["rev-parse"; "HEAD"] true ex_state (ex_world ∅) H)].
Defined.

Lemma build_for_platform_artifact_witness :
  build_for_platform (ex_exec "") ex_root "linux" "amd64" ex_state = (Ret true, ex_linux_build) /\
  exists_path (st_w ex_linux_build) (app build_dir [platform_binary_name "linux" "amd64"]) = true.
Proof.
  assert (H : build_for_platform (ex_exec "") ex_root "linux" "amd64" ex_state = (Ret true, ex_linux_build))
    by (vm_compute; reflexivity).
  split; [exact H | exact (proj1 (build_for_platform_artifact (ex_exec "") ex_root "linux" "amd64" ex_state ex_linux_build H))].
Defined.

Lemma validate_first_false_step_witness :
  stops_at ex_steps_lint (ex_world ∅) 1 "Lint" (Ret false) (ex_world ∅) /\
  nth_error (step_names ex_steps_lint) 1 = Some "Lint" /\
  all_succeed [ex_ok "Build"] (ex_world ex_build_fs) (ex_world ex_build_fs) /\
  validate (ex_exec "") ex_root [ex_ok "Build"] (mk_state (ex_world ex_build_fs) []) =
    match generate_build_info (ex_exec "") ex_root
            (mk_state (ex_world ex_build_fs) (app [] (EvHeader validate_title :: invoked (step_names [ex_ok "Build"])))) with
    | (Ret bi, s2) =>
        (Ret true, mk_state (st_w s2) (app (st_log s2) [EvBuildInfo bi; EvSuccess "Build info generated"]))
    | (Raise e, s2) => (Raise e, s2)
    end.
Proof.
  assert (H1 : stops_at ex_steps_lint (ex_world ∅) 1 "Lint" (Ret false) (ex_world ∅)).
  { eapply stops_later; [reflexivity |]. apply stops_here; [reflexivity | discriminate]. }
  assert (H2 : all_succeed [ex_ok "Build"] (ex_world ex_build_fs) (ex_world ex_build_fs)).
  { eapply all_succeed_cons; [reflexivity | apply all_succeed_nil]. }
  split; [exact H1 | split; [| split; [exact H2 |]]].
  - exact (proj1 (proj1 (validate_first_false_step (ex_exec "") ex_root ex_steps_lint (ex_world ∅) []) 1 "Lint" (ex_world ∅) H1)).
  - exact (proj2 (validate_first_false_step (ex_exec "") ex_root [ex_ok "Build"] (ex_world ex_build_fs) []) (ex_world ex_build_fs) H2).
Defined.

Lemma validate_step_exception_witness :
  stops_at [ex_ok "Build"; ex_raise "Tests" ex_value_error] (ex_world ∅) 1 "Tests" (Raise ex_value_error) (ex_world ∅) /\
  exn_class ex_value_error = ExcException /\
  fst (validate (ex_exec "") ex_root [ex_ok "Build"; ex_raise "Tests" ex_value_error] ex_state) = Ret false /\
  stops_at [ex_ok "Build"; ex_raise "Tests" ex_kbd] (ex_world ∅) 1 "Tests" (Raise ex_kbd) (ex_world ∅) /\
  exn_class ex_kbd = ExcBaseOnly /\
  fst (validate (ex_exec "") ex_root [ex_ok "Build"; ex_raise "Tests" ex_kbd] ex_state) = Raise ex_kbd.
Proof.
  assert (H1 : stops_at [ex_ok "Build"; ex_raise "Tests" ex_value_error] (ex_world ∅) 1 "Tests" (Raise ex_value_error) (ex_world ∅)).
  { eapply stops_later; [reflexivity |]. apply stops_here; [reflexivity | discriminate]. }
  assert (H2 : stops_at [ex_ok "Build"; ex_raise "Tests" ex_kbd] (ex_world ∅) 1 "Tests" (Raise ex_kbd) (ex_world ∅)).
  { eapply stops_later; [reflexivity |]. apply stops_here; [reflexivity | discriminate]. }
  assert (E1 : exn_class ex_value_error = ExcException) by reflexivity.
  assert (E2 : exn_class ex_kbd = ExcBaseOnly) by reflexivity.
  split; [exact H1 | split; [exact E1 | split; [| split; [exact H2 | split; [exact E2 |]]]]].
  - unfold ex_state.
    rewrite (proj1 (validate_step_exception (ex_exec "") ex_root _ (ex_world ∅) []) 1 "Tests" ex_value_error (ex_world ∅) H1 E1).
    reflexivity.
  - unfold ex_state.
    rewrite (proj1 (proj2 (validate_step_exception (ex_exec "") ex_root _ (ex_world ∅) [])) 1 "Tests" ex_kbd (ex_world ∅) H2 E2).
    reflexivity.
Defined.

Lemma validate_build_info_only_after_success_witness :
  stops_at ex_steps_lint (ex_world ∅) 1 "Lint" (Ret false) (ex_world ∅) /\
  (exists new, snd (validate (ex_exec "") ex_root ex_steps_lint (mk_state (ex_world ∅) [])) = mk_state (ex_world ∅) (app [] new) /\
               forall bi, ~ In (EvBuildInfo bi) new) /\
  In (EvBuildInfo ex_bi) (st_log (snd (validate (ex_exec "") ex_root [ex_ok "Build"] (mk_state (ex_world ex_build_fs) [])))) /\
  (In (EvBuildInfo ex_bi) [] \/ exists w', all_succeed [ex_ok "Build"] (ex_world ex_build_fs) w').
Proof.
  assert (H1 : stops_at ex_steps_lint (ex_world ∅) 1 "Lint" (Ret false) (ex_world ∅)).
  { eapply stops_later; [reflexivity |]. apply stops_here; [reflexivity | discriminate]. }
  assert (H2 : In (EvBuildInfo ex_bi) (st_log (snd (validate (ex_exec "") ex_root [ex_ok "Build"] (mk_state (ex_world ex_build_fs) []))))).
  { vm_compute. repeat (first [left; reflexivity | right]). }
  split; [exact H1 | split; [| split; [exact H2 |]]].
  - exact (proj1 (validate_build_info_only_after_success (ex_exec "") ex_root ex_steps_lint (ex_world ∅) []) 1 "Lint" (Ret false) (ex_world ∅) H1).
  - exact (proj2 (validate_build_info_only_after_success (ex_exec "") ex_root [ex_ok "Build"] (ex_world ex_build_fs) []) ex_bi H2).
Defined.

Lemma clean_idempotent_witness :
  w_fs (ex_world ex_src_fs) !! build_dir = None /\
  w_fs (ex_world ex_src_fs) !! [binary_name (ex_world ex_src_fs)] = None /\
  (forall p k, w_fs (ex_world ex_src_fs) !! p = Some k -> artifact_keep (p, k) = true) /\
  clean_outcome ex_root (mk_state (ex_world ex_src_fs) []) = (Ret true, ex_world ex_src_fs).
Proof.
  assert (H1 : w_fs (ex_world ex_src_fs) !! build_dir = None) by reflexivity.
  assert (H2 : w_fs (ex_world ex_src_fs) !! [binary_name (ex_world ex_src_fs)] = None) by reflexivity.
  assert (H3 : forall p k, w_fs (ex_world ex_src_fs) !! p = Some k -> artifact_keep (p, k) = true).
  { intros p k Hp. cbn [w_fs ex_world] in Hp. unfold ex_src_fs in Hp.
    apply lookup_singleton_Some in Hp as [<- <-]. vm_compute. reflexivity. }
  split; [exact H1 | split; [exact H2 | split; [exact H3 |]]].
  exact (proj2 (clean_idempotent ex_root (mk_state (ex_world ex_src_fs) [])) H1 H2 H3).
Defined.

Lemma validate_probe_failures_degrade_witness :
  (exists bi s', validate ex_exec_native ex_root [ex_ok "Build"] (mk_state (ex_world ex_build_fs) []) = (Ret true, s') /\
     In (EvBuildInfo bi) (st_log s') /\ bi_git_branch bi = "unknown" /\ bi_git_dirty bi = false) /\
  fst (validate ex_exec_denied ex_root [ex_ok "Build"] (mk_state (ex_world ex_build_fs) [])) = Raise ex_perm.
Proof.
  assert (Hs : all_succeed [ex_ok "Build"] (ex_world ex_build_fs) (ex_world ex_build_fs)).
  { eapply all_succeed_cons; [reflexivity | apply all_succeed_nil]. }
  split.
  - destruct (validate_probe_failures_degrade ex_exec_native ex_root [ex_ok "Build"]
                (ex_world ex_build_fs) (ex_world ex_build_fs) (ex_world ex_build_fs) (ex_world ex_build_fs)
                (ex_world ex_build_fs) (ex_world ex_build_fs)
                (Completed (mk_completed 0 "0123456789abcdef0123456789abcdef01234567
" "")) NotFound NotFound
                (Completed (mk_completed 0 "go version go1.22.0 linux/amd64
" "")) [] Hs
                ltac:(vm_compute; reflexivity) ltac:(vm_compute; reflexivity)
                ltac:(vm_compute; reflexivity) ltac:(vm_compute; reflexivity)) as [Hok _].
    destruct (Hok ltac:(reflexivity) ltac:(reflexivity) ltac:(vm_compute; discriminate))
      as (bi & s' & Hv & Hin & _ & Hb & Hd & _).
    exists bi, s'. split; [exact Hv | split; [exact Hin | split; [exact (Hb eq_refl) | exact (Hd eq_refl)]]].
  - destruct (validate_probe_failures_degrade ex_exec_denied ex_root [ex_ok "Build"]
                (ex_world ex_build_fs) (ex_world ex_build_fs) (ex_world ex_build_fs) (ex_world ex_build_fs)
                (ex_world ex_build_fs) (ex_world ex_build_fs)
                (OSFailure ex_perm) (OSFailure ex_perm) (OSFailure ex_perm)
                (Completed (mk_completed 0 "go version go1.22.0 linux/amd64
" "")) [] Hs
                ltac:(vm_compute; reflexivity) ltac:(vm_compute; reflexivity)
                ltac:(vm_compute; reflexivity) ltac:(vm_compute; reflexivity)) as [_ Hr].
    exact (Hr ex_perm ltac:(reflexivity)).
Defined.

Lemma build_all_platforms_attempts_each_witness :
  build_all_platforms (ex_exec (target_path "windows" "amd64")) ex_root ex_state =
    (Ret false, snd (build_all_platforms (ex_exec (target_path "windows" "amd64")) ex_root ex_state)) /\
  exists oks, per_target_results (ex_exec (target_path "windows" "amd64")) ex_root SUPPORTED_PLATFORMS
                (mk_state (st_w ex_state) (app (st_log ex_state) [EvHeader matrix_title]))
              = (Ret oks, snd (build_all_platforms (ex_exec (target_path "windows" "amd64")) ex_root ex_state)) /\
              length oks = length SUPPORTED_PLATFORMS /\ false = forallb id oks.
Proof.
  assert (H : build_all_platforms (ex_exec (target_path "windows" "amd64")) ex_root ex_state =
    (Ret false, snd (build_all_platforms (ex_exec (target_path "windows" "amd64")) ex_root ex_state)))
    by (vm_compute; reflexivity).
  split; [exact H |].
  exact (proj1 (proj2 (build_all_platforms_attempts_each (ex_exec (target_path "windows" "amd64")) ex_root ex_state) _ _ H)).
Defined.

(** * Counterexamples *)

(** C1: every step returns True, yet [validate] does not report success:
    the [PermissionError] of the [git] probe in [generate_build_info],
    which runs outside the step loop's [try], propagates. *)
Lemma validate_all_true_can_raise :
  all_succeed [ex_ok "Build"] (ex_world ex_build_fs) (ex_world ex_build_fs) /\
  fst (validate ex_exec_denied ex_root [ex_ok "Build"] (mk_state (ex_world ex_build_fs) [])) = Raise ex_perm.
Proof.
  split.
  - eapply all_succeed_cons; [reflexivity | apply all_succeed_nil].
  - vm_compute. reflexivity.
Qed.

(** C3: two matrix runs whose per-target outcomes differ ([windows/amd64]
    fails in one, [linux/amd64] in the other) return the same value: the
    caller gets a single bool, not a per-target map. *)
Lemma build_all_platforms_returns_bool_only :
  fst (per_target_results (ex_exec (target_path "windows" "amd64")) ex_root SUPPORTED_PLATFORMS ex_state)
    = Ret [true; false; true; true; true] /\
  fst (per_target_results (ex_exec (target_path "linux" "amd64")) ex_root SUPPORTED_PLATFORMS ex_state)
    = Ret [false; true; true; true; true] /\
  fst (build_all_platforms (ex_exec (target_path "windows" "amd64")) ex_root ex_state) = Ret false /\
  fst (build_all_platforms (ex_exec (target_path "linux" "amd64")) ex_root ex_state) = Ret false.
Proof. vm_compute. repeat split. Qed.

(** C4: a [KeyboardInterrupt] raised by a step's action is not caught by
    [except Exception]: [validate] raises it instead of returning False. *)
Lemma validate_keyboard_interrupt_propagates :
  fst (validate (ex_exec "") ex_root [ex_raise "Tests" ex_kbd; ex_ok "Build"] ex_state) = Raise ex_kbd.
Proof. vm_compute. reflexivity. Qed.

(** C6: a [git] probe that fails with [PermissionError] (an [OSError]
    other than [FileNotFoundError]) is not degraded to ["unknown"]:
    [generate_build_info] raises. *)
Lemma generate_build_info_permission_error :
  fst (generate_build_info ex_exec_denied ex_root (mk_state (ex_world ex_build_fs) [])) = Raise ex_perm.
Proof. vm_compute. reflexivity. Qed.

(** ** Witnesses of the command properties *)

Lemma check_prerequisites_outcome_witness :
  exists l, check_prerequisites (ex_exec_ok [go_version_cmd]) ex_root (mk_state (ex_world ex_go_mod_fs) []) =
              (Ret true, mk_state (ex_world ex_go_mod_fs) l) /\
            map fst (spawns l) = [go_version_cmd].
Proof.
  destruct (check_prerequisites_outcome (ex_exec_ok [go_version_cmd]) ex_root (mk_state (ex_world ex_go_mod_fs) [])
              ex_exit0 (ex_world ex_go_mod_fs) ltac:(vm_compute; reflexivity) ltac:(intros e; discriminate))
    as (l & H1 & H2).
  exists l. split; [exact H1 | exact H2].
Defined.

Lemma download_dependencies_download_fails_witness :
  exists l, download_dependencies (ex_exec "") ex_root ex_state = (Ret false, mk_state (ex_world ∅) l) /\
            map fst (spawns l) = [go_mod_download_cmd].
Proof.
  destruct (download_dependencies_download_fails (ex_exec "") ex_root ex_state NotFound (ex_world ∅)
              ltac:(vm_compute; reflexivity) ltac:(intros e; discriminate) ltac:(reflexivity))
    as (l & H1 & H2).
  exists l. split; [exact H1 | exact H2].
Defined.

Lemma download_dependencies_verify_witness :
  exists l, download_dependencies (ex_exec_ok [go_mod_download_cmd]) ex_root ex_state =
              (Ret false, mk_state (ex_world ∅) l) /\
            map fst (spawns l) = [go_mod_download_cmd; go_mod_verify_cmd].
Proof.
  destruct (download_dependencies_verify (ex_exec_ok [go_mod_download_cmd]) ex_root ex_state
              ex_exit0 ex_exit1 (ex_world ∅) (ex_world ∅)
              ltac:(vm_compute; reflexivity) ltac:(intros e; discriminate) ltac:(reflexivity)
              ltac:(vm_compute; reflexivity) ltac:(intros e; discriminate))
    as (l & H1 & H2).
  exists l. split; [exact H1 | exact H2].
Defined.

Lemma lint_code_golangci_witness :
  exists l, lint_code (ex_exec_ok [golangci_version_cmd; golangci_run_cmd]) ex_root ex_state =
              (Ret true, mk_state (ex_world ∅) l) /\
            map fst (spawns l) = [golangci_version_cmd; golangci_run_cmd].
Proof.
  destruct (lint_code_golangci (ex_exec_ok [golangci_version_cmd; golangci_run_cmd]) ex_root ex_state
              ex_exit0 ex_exit0 (ex_world ∅) (ex_world ∅)
              ltac:(vm_compute; reflexivity) ltac:(intros e; discriminate) ltac:(reflexivity)
              ltac:(vm_compute; reflexivity) ltac:(intros e; discriminate))
    as (l & H1 & H2).
  exists l. split; [exact H1 | exact H2].
Defined.

Lemma lint_code_go_vet_fallback_witness :
  exists l, lint_code (ex_exec_ok [go_vet_cmd]) ex_root ex_state = (Ret true, mk_state (ex_world ∅) l) /\
            map fst (spawns l) = [golangci_version_cmd; go_vet_cmd].
Proof.
  destruct (lint_code_go_vet_fallback (ex_exec_ok [go_vet_cmd]) ex_root ex_state
              ex_exit1 ex_exit0 (ex_world ∅) (ex_world ∅)
              ltac:(vm_compute; reflexivity) ltac:(intros e; discriminate) ltac:(reflexivity)
              ltac:(vm_compute; reflexivity) ltac:(intros e; discriminate))
    as (l & H1 & H2).
  exists l. split; [exact H1 | exact H2].
Defined.

Lemma run_security_checks_skipped_witness :
  exists l, run_security_checks (ex_exec "") ex_root ex_state = (Ret true, mk_state (ex_world ∅) l) /\
            map fst (spawns l) = [gosec_version_cmd] /\
            In (EvWarning "gosec not available - skipping security scan") l.
Proof.
  exact (run_security_checks_skipped (ex_exec "") ex_root ex_state NotFound (ex_world ∅)
           ltac:(vm_compute; reflexivity) ltac:(intros e; discriminate) ltac:(reflexivity)).
Defined.

Lemma run_security_checks_scan_witness :
  exists l, run_security_checks (ex_exec_ok [gosec_version_cmd]) ex_root ex_state =
              (Ret false, mk_state (ex_world ∅) l) /\
            map fst (spawns l) = [gosec_version_cmd; gosec_run_cmd].
Proof.
  destruct (run_security_checks_scan (ex_exec_ok [gosec_version_cmd]) ex_root ex_state
              ex_exit0 ex_exit1 (ex_world ∅) (ex_world ∅)
              ltac:(vm_compute; reflexivity) ltac:(intros e; discriminate) ltac:(reflexivity)
              ltac:(vm_compute; reflexivity) ltac:(intros e; discriminate))
    as (l & H1 & H2).
  exists l. split; [exact H1 | exact H2].
Defined.

Lemma run_tests_no_coverage_witness :
  exists l, run_tests (ex_exec_ok [go_test_cmd false]) ex_root false ex_state = (Ret true, mk_state (ex_world ∅) l) /\
            map fst (spawns l) = [["go"; "test"; "-v"; "./..."]].
Proof.
  destruct (run_tests_no_coverage (ex_exec_ok [go_test_cmd false]) ex_root ex_state ex_exit0 (ex_world ∅)
              ltac:(vm_compute; reflexivity) ltac:(intros e; discriminate))
    as (l & H1 & H2).
  exists l. split; [exact H1 | exact H2].
Defined.


Lemma build_binary_exec_test_not_fatal_witness :
  exists l, build_binary ex_exec_native ex_root ex_state = (Ret true, mk_state ex_native_world l) /\
            map fst (spawns l) = [go_build_cmd ex_bp; [ex_bp; "-h"]].
Proof.
  destruct (build_binary_exec_test_not_fatal ex_exec_native ex_root ex_state
              ex_exit0 (Completed (mk_completed 2 "" "flag provided but not defined: -h"))
              ex_native_world ex_native_world
              ltac:(vm_compute; discriminate) ltac:(vm_compute; reflexivity) ltac:(intros e; discriminate)
              ltac:(reflexivity) ltac:(vm_compute; reflexivity) ltac:(vm_compute; reflexivity)
              ltac:(intros e; discriminate))
    as (l & H1 & H2).
  exists l. split; [exact H1 | exact H2].
Defined.

Lemma build_binary_failure_witness :
  exists l, build_binary (ex_exec "") ex_root ex_state = (Ret false, mk_state ex_build_world l) /\
            map fst (spawns l) = [go_build_cmd ex_bp].
Proof.
  destruct (build_binary_failure (ex_exec "") ex_root ex_state ex_exit0 ex_build_world
              ltac:(vm_compute; discriminate) ltac:(vm_compute; reflexivity) ltac:(intros e; discriminate)
              ltac:(vm_compute; reflexivity))
    as (l & H1 & H2).
  exists l. split; [exact H1 | exact H2].
Defined.

Lemma generate_build_info_commit_short_witness :
  generate_build_info ex_exec_native ex_root (mk_state (ex_world ex_build_fs) []) = (Ret ex_native_bi, ex_info_state) /\
  String.length (bi_git_commit ex_native_bi) <= 8.
Proof.
  assert (H : generate_build_info ex_exec_native ex_root (mk_state (ex_world ex_build_fs) []) = (Ret ex_native_bi, ex_info_state))
    by (vm_compute; reflexivity).
  split; [exact H | exact (generate_build_info_commit_short ex_exec_native ex_root (mk_state (ex_world ex_build_fs) []) ex_info_state ex_native_bi H)].
Defined.

Lemma generate_build_info_writes_file_witness :
  generate_build_info ex_exec_native ex_root (mk_state (ex_world ex_build_fs) []) = (Ret ex_native_bi, ex_info_state) /\
  w_fs (st_w ex_info_state) !! build_info_path = Some KFile.
Proof.
  assert (H : generate_build_info ex_exec_native ex_root (mk_state (ex_world ex_build_fs) []) = (Ret ex_native_bi, ex_info_state))
    by (vm_compute; reflexivity).
  split; [exact H | exact (proj2 (generate_build_info_writes_file ex_exec_native ex_root (mk_state (ex_world ex_build_fs) []) ex_info_state ex_native_bi H))].
Defined.

Lemma run_cli_build_platform_witness :
  run_cli_command (ex_exec "") ex_root CmdBuild (Some "linux/amd64") =
    and_then (check_prerequisites (ex_exec "") ex_root)
      (and_then (download_dependencies (ex_exec "") ex_root) (build_for_platform (ex_exec "") ex_root "linux" "amd64")).
Proof.
  exact (run_cli_build_platform (ex_exec "") ex_root "linux" "amd64" ltac:(reflexivity) ltac:(reflexivity)).
Defined.

Lemma main_bad_platform_witness :
  main (ex_exec "") ex_root CmdBuild (Some "a/b/c") "0.1" ex_state =
    (Raise (system_exit "1"), mk_state (ex_world ∅) [EvError platform_error]).
Proof.
  exact (main_bad_platform (ex_exec "") ex_root "a/b/c" "0.1" ex_state
           ltac:(discriminate) ltac:(vm_compute; lia)).
Defined.

Lemma main_exit_code_witness :
  fst (main (ex_exec "") ex_root CmdClean None "0.1" ex_state) = Raise (system_exit "0").
Proof.
  assert (H : run_cli_command (ex_exec "") ex_root CmdClean None ex_state =
              (Ret true, snd (run_cli_command (ex_exec "") ex_root CmdClean None ex_state)))
    by (vm_compute; reflexivity).
  rewrite (main_exit_code (ex_exec "") ex_root CmdClean None "0.1" ex_state _ true H).
  reflexivity.
Defined.

Lemma main_exception_witness :
  fst (main (ex_exec_raise ex_kbd) ex_root CmdDeps None "0.1" ex_state) = Raise (system_exit "1") /\
  fst (main (ex_exec_raise ex_perm) ex_root CmdDeps None "0.1" ex_state) = Raise (system_exit "1") /\
  fst (main (ex_exec_raise ex_sysexit) ex_root CmdDeps None "0.1" ex_state) = Raise ex_sysexit.
Proof.
  assert (H1 : run_cli_command (ex_exec_raise ex_kbd) ex_root CmdDeps None ex_state =
               (Raise ex_kbd, snd (run_cli_command (ex_exec_raise ex_kbd) ex_root CmdDeps None ex_state)))
    by (vm_compute; reflexivity).
  assert (H2 : run_cli_command (ex_exec_raise ex_perm) ex_root CmdDeps None ex_state =
               (Raise ex_perm, snd (run_cli_command (ex_exec_raise ex_perm) ex_root CmdDeps None ex_state)))
    by (vm_compute; reflexivity).
  assert (H3 : run_cli_command (ex_exec_raise ex_sysexit) ex_root CmdDeps None ex_state =
               (Raise ex_sysexit, snd (run_cli_command (ex_exec_raise ex_sysexit) ex_root CmdDeps None ex_state)))
    by (vm_compute; reflexivity).
  split; [|split].
  - rewrite (proj1 (main_exception (ex_exec_raise ex_kbd) ex_root CmdDeps None "0.1" ex_state _ ex_kbd H1)
               ltac:(reflexivity)).
    reflexivity.
  - rewrite (proj1 (proj2 (main_exception (ex_exec_raise ex_perm) ex_root CmdDeps None "0.1" ex_state _ ex_perm H2))
               ltac:(discriminate) ltac:(reflexivity)).
    reflexivity.
  - rewrite (proj2 (proj2 (main_exception (ex_exec_raise ex_sysexit) ex_root CmdDeps None "0.1" ex_state _ ex_sysexit H3))
               ltac:(discriminate) ltac:(reflexivity)).
    reflexivity.
Defined.

Lemma main_without_go_witness :
  exists l, main (ex_exec_ok []) ex_root CmdTest None "0.1" ex_state =
              (Raise (system_exit "1"), mk_state (ex_world ∅) l) /\
            map fst (spawns l) = [go_version_cmd] /\ In (EvOut "Status: FAILED") l.
Proof.
  assert (Hx : ex_exec_ok [] (st_w ex_state) go_version_cmd ex_root (w_environ (st_w ex_state)) =
               (ex_exit1, ex_world ∅)) by (vm_compute; reflexivity).
  assert (Hc : CmdTest <> CmdBuild \/ @None string = None) by (left; discriminate).
  destruct (main_without_go (ex_exec_ok []) ex_root CmdTest None "0.1" ex_state ex_exit1 (ex_world ∅)
              ltac:(discriminate) ltac:(discriminate) Hc Hx ltac:(intros e; discriminate) ltac:(reflexivity))
    as (l & H1 & H2 & H3).
  exists l. split; [exact H1 | split; [exact H2 | exact H3]].
Defined.
